(** * The fleet-status client of package [tesla] (tesla.go)

    A shallow embedding of [New], its options and [Client.GetFleetStatus],
    and the properties of the request/response mapping.

    Conventions of the embedding.
    - A Go [string] and a [[]byte] are byte sequences: [string].
    - A Go result pair [(x, err)] is a pair whose second component is an
      [option error] ([None] is a nil error) where the code reads both
      components, and a [result] where the value only exists without error.
    - The pointer fields [*bool], [*string], [*int] are [option]s ([None] is
      nil).  [*http.Client] and [*url.URL] are taken non-nil: a nil receiver
      makes the Go runtime panic before any of the code below is reached.
    - Functions of the Go standard library are either written out where
      their documented behaviour is short, or members of the class
      [Library] below. *)

From Stdlib Require Import ZArith Ascii String DecimalString DecimalZ DecimalPos.
From stdpp Require Import base option list strings gmap.

(** ** Errors *)

(** Error values, by the way they are built. *)
Inductive error : Type :=
| errorString (s : string)
    (** [errors.New(s)], [fmt.Errorf] without [%w], or a library error known
        by its text *)
| wrapError (prefix : string) (err : error)
    (** [fmt.Errorf(prefix + "%w", err)]: its text is [prefix] followed by the
        text of [err], and [errors.Unwrap] gives [err] *)
| UnmarshalTypeError (Value : string) (Type_ : string)
    (** [*json.UnmarshalTypeError]: a JSON value of kind [Value] met a Go
        value of type [Type_] *)
| SyntaxError.
    (** [*json.SyntaxError] *)

Definition errors_Unwrap (err : error) : option error :=
  match err with
  | wrapError _ e => Some e
  | _ => None
  end.

(** The verb [%d] on an [int]. *)
Definition format_d (n : Z) : string := NilZero.string_of_int (Z.to_int n).

Definition fmt_Errorf_w (prefix : string) (err : error) : error :=
  wrapError prefix err.

Definition fmt_Errorf_d (prefix : string) (n : Z) : error :=
  errorString (prefix +:+ format_d n).

(** A library result [(x, err)] in which [x] is meaningful exactly when
    [err] is nil. *)
Inductive result (A : Type) : Type :=
| Ok (a : A)
| Err (err : error).
Arguments Ok {A} a.
Arguments Err {A} err.

(** ** encoding/json: values *)

Local Set Warnings "-register-all".

(** A JSON text as the decoder walks it: object members in the order of the
    text, duplicates kept; strings unquoted; numbers as their literal. *)
Inductive json : Type :=
| JNull
| JBool (b : bool)
| JNumber (lit : string)
| JString (s : string)
| JArray (elems : list json)
| JObject (members : list (string * json)).

(** The [Value] an [UnmarshalTypeError] reports for a JSON value. *)
Definition json_kind (j : json) : string :=
  match j with
  | JNull => "null"
  | JBool _ => "bool"
  | JNumber _ => "number"
  | JString _ => "string"
  | JArray _ => "array"
  | JObject _ => "object"
  end.

(** ** strconv.ParseInt(s, 10, 64) *)

Definition digit_of (c : ascii) : option Z :=
  let n := Z.of_N (N_of_ascii c) in
  if ((48 <=? n) && (n <=? 57))%Z then Some (n - 48)%Z else None.

Fixpoint parse_digits (acc : Z) (s : string) : option Z :=
  match s with
  | EmptyString => Some acc
  | String c rest =>
      match digit_of c with
      | Some d => parse_digits (10 * acc + d)%Z rest
      | None => None
      end
  end.

(** Size of Go's [int], in bits, on a 64-bit platform. *)
Definition intSize : Z := 64.

Definition strconv_ParseInt (s : string) : option Z :=
  let '(neg, body) :=
    match s with
    | String "-" rest => (true, rest)
    | String "+" rest => (false, rest)
    | _ => (false, s)
    end in
  match body with
  | EmptyString => None
  | _ =>
      match parse_digits 0 body with
      | Some n =>
          let v := if neg then (- n)%Z else n in
          if ((- 2 ^ (intSize - 1) <=? v) && (v <? 2 ^ (intSize - 1)))%Z
          then Some v else None
      | None => None
      end
  end.

(** ** encoding/json: matching a member name to a struct field *)

Definition to_upper (c : ascii) : ascii :=
  let n := N_of_ascii c in
  if ((97 <=? n) && (n <=? 122))%N then ascii_of_N (n - 32) else c.

(** The folded form of a name.  ASCII letters go to upper case; of the runes
    outside ASCII only U+017F (bytes C5 BF) and U+212A (bytes E2 84 AA) fold to
    an ASCII letter, S and K.  Other bytes are kept: whatever they fold to
    stays outside ASCII, so equality with the folded form of an ASCII name is
    that of [bytes.EqualFold]. *)
Fixpoint foldName (s : string) : string :=
  match s with
  | EmptyString => EmptyString
  | String c rest =>
      match N_of_ascii c, rest with
      | 197%N, String c1 rest1 =>
          if (N_of_ascii c1 =? 191)%N then String "S" (foldName rest1)
          else String c (foldName rest)
      | 226%N, String c1 (String c2 rest2) =>
          if ((N_of_ascii c1 =? 132) && (N_of_ascii c2 =? 170))%N
          then String "K" (foldName rest2)
          else String c (foldName rest)
      | _, _ => String (to_upper c) (foldName rest)
      end
  end.

(** Whether member name [key] selects the field tagged [name]: an exact match,
    else a match of the folded names. *)
Definition field_matches (name key : string) : bool :=
  String.eqb key name || String.eqb (foldName key) (foldName name).

(** ** encoding/json: the decoder's state *)

(** [decodeState.savedError]: the first error met while storing values;
    decoding goes on after it. *)
Definition decodeState (A : Type) : Type := option error -> A * option error.

Definition dret {A} (a : A) : decodeState A := fun saved => (a, saved).

Definition dbind {A B} (m : decodeState A) (k : A -> decodeState B)
  : decodeState B :=
  fun saved => let '(a, saved') := m saved in k a saved'.

Definition saveError (err : error) : decodeState unit :=
  fun saved =>
    (tt, match saved with None => Some err | Some _ => saved end).

Declare Scope decode_scope.
Delimit Scope decode_scope with decode.
Notation "x <~ m ;; k" := (dbind m (fun x => k))
  (at level 100, m at next level, right associativity) : decode_scope.
Notation "m ;;; k" := (dbind m (fun _ => k))
  (at level 100, right associativity) : decode_scope.

(** The loop over the members of an object or the elements of an array. *)
Fixpoint dfold {A B} (f : A -> B -> decodeState A) (a : A) (l : list B)
  : decodeState A :=
  match l with
  | [] => dret a
  | b :: rest => dbind (f a b) (fun a' => dfold f a' rest)
  end.

Local Open Scope decode_scope.

(** ** encoding/json: storing a value into a Go value of a given type

    Each decoder takes the Go value already there and gives the one after the
    JSON value has been stored.  [null] leaves a bool, string or int as it
    is and sets a pointer, slice or map to nil. *)

Definition decode_bool (v : bool) (j : json) : decodeState bool :=
  match j with
  | JNull => dret v
  | JBool b => dret b
  | _ => saveError (UnmarshalTypeError (json_kind j) "bool") ;;; dret v
  end.

Definition decode_string (v : string) (j : json) : decodeState string :=
  match j with
  | JNull => dret v
  | JString s => dret s
  | _ => saveError (UnmarshalTypeError (json_kind j) "string") ;;; dret v
  end.

Definition decode_int (v : Z) (j : json) : decodeState Z :=
  match j with
  | JNull => dret v
  | JNumber lit =>
      match strconv_ParseInt lit with
      | Some n => dret n
      | None => saveError (UnmarshalTypeError ("number " +:+ lit) "int") ;;; dret v
      end
  | _ => saveError (UnmarshalTypeError (json_kind j) "int") ;;; dret v
  end.

(** A pointer: [null] stores nil; any other value is stored into the pointee,
    allocated as the zero value when the pointer was nil. *)
Definition decode_ptr {A} (dec : A -> json -> decodeState A) (zero : A)
    (v : option A) (j : json) : decodeState (option A) :=
  match j with
  | JNull => dret None
  | _ => x <~ dec (default zero v) j ;; dret (Some x)
  end.

(** A [[]string].  Element [i] is stored into the element the slice has at [i]
    (a [null] element keeps it), the empty string beyond its length; the slice
    ends with as many elements as the array. *)
Fixpoint decode_elems (v : list string) (elems : list json)
  : decodeState (list string) :=
  match elems with
  | [] => dret []
  | j :: rest =>
      s <~ decode_string (hd "" v) j ;;
      ss <~ decode_elems (tl v) rest ;;
      dret (s :: ss)
  end.

Definition decode_strings (v : list string) (j : json)
  : decodeState (list string) :=
  match j with
  | JNull => dret []
  | JArray elems => decode_elems v elems
  | _ => saveError (UnmarshalTypeError (json_kind j) "[]string") ;;; dret v
  end.

(** ** The response types of tesla.go and their decoders

    The fields of [vehicleInfo] carry the name of the type: [FleetStatus] has
    fields of the same names. *)

Record vehicleInfo : Type := {
  vehicleInfo_VehicleCommandProtocolRequired : bool;
  vehicleInfo_SafetyScreenStreamingToggleEnabled : option bool;
  vehicleInfo_FirmwareVersion : string;
  vehicleInfo_FleetTelemetryVersion : option string;
  vehicleInfo_TotalNumberOfKeys : option Z;
  vehicleInfo_DiscountedDeviceData : bool;
}.

Record fleetStatus : Type := {
  KeyPairedVINs : list string;
  UnpairedVINs : list string;
  VehicleInfo : gmap string vehicleInfo;
}.

Record responseWrapper (A : Type) : Type := { Response : A }.
Arguments Response {A} _.

Record getFleetStatusRequest : Type := { VINs : list string }.

(** The zero values. *)
Definition vehicleInfo_zero : vehicleInfo := {|
  vehicleInfo_VehicleCommandProtocolRequired := false;
  vehicleInfo_SafetyScreenStreamingToggleEnabled := None;
  vehicleInfo_FirmwareVersion := "";
  vehicleInfo_FleetTelemetryVersion := None;
  vehicleInfo_TotalNumberOfKeys := None;
  vehicleInfo_DiscountedDeviceData := false;
|}.

Definition fleetStatus_zero : fleetStatus :=
  {| KeyPairedVINs := []; UnpairedVINs := []; VehicleInfo := ∅ |}.

Definition responseWrapper_zero : responseWrapper fleetStatus :=
  {| Response := fleetStatus_zero |}.

(** One member of a JSON object stored into a [vehicleInfo], by the [json]
    tags of the struct; a member that selects no field is skipped. *)
Definition decode_vehicleInfo_member (v : vehicleInfo) (m : string * json)
  : decodeState vehicleInfo :=
  let '(key, j) := m in
  if field_matches "vehicle_command_protocol_required" key then
    x <~ decode_bool (vehicleInfo_VehicleCommandProtocolRequired v) j ;;
    dret {| vehicleInfo_VehicleCommandProtocolRequired := x;
            vehicleInfo_SafetyScreenStreamingToggleEnabled :=
              vehicleInfo_SafetyScreenStreamingToggleEnabled v;
            vehicleInfo_FirmwareVersion := vehicleInfo_FirmwareVersion v;
            vehicleInfo_FleetTelemetryVersion := vehicleInfo_FleetTelemetryVersion v;
            vehicleInfo_TotalNumberOfKeys := vehicleInfo_TotalNumberOfKeys v;
            vehicleInfo_DiscountedDeviceData := vehicleInfo_DiscountedDeviceData v |}
  else if field_matches "safety_screen_streaming_toggle_enabled" key then
    x <~ decode_ptr decode_bool false
           (vehicleInfo_SafetyScreenStreamingToggleEnabled v) j ;;
    dret {| vehicleInfo_VehicleCommandProtocolRequired :=
              vehicleInfo_VehicleCommandProtocolRequired v;
            vehicleInfo_SafetyScreenStreamingToggleEnabled := x;
            vehicleInfo_FirmwareVersion := vehicleInfo_FirmwareVersion v;
            vehicleInfo_FleetTelemetryVersion := vehicleInfo_FleetTelemetryVersion v;
            vehicleInfo_TotalNumberOfKeys := vehicleInfo_TotalNumberOfKeys v;
            vehicleInfo_DiscountedDeviceData := vehicleInfo_DiscountedDeviceData v |}
  else if field_matches "firmware_version" key then
    x <~ decode_string (vehicleInfo_FirmwareVersion v) j ;;
    dret {| vehicleInfo_VehicleCommandProtocolRequired :=
              vehicleInfo_VehicleCommandProtocolRequired v;
            vehicleInfo_SafetyScreenStreamingToggleEnabled :=
              vehicleInfo_SafetyScreenStreamingToggleEnabled v;
            vehicleInfo_FirmwareVersion := x;
            vehicleInfo_FleetTelemetryVersion := vehicleInfo_FleetTelemetryVersion v;
            vehicleInfo_TotalNumberOfKeys := vehicleInfo_TotalNumberOfKeys v;
            vehicleInfo_DiscountedDeviceData := vehicleInfo_DiscountedDeviceData v |}
  else if field_matches "fleet_telemetry_version" key then
    x <~ decode_ptr decode_string "" (vehicleInfo_FleetTelemetryVersion v) j ;;
    dret {| vehicleInfo_VehicleCommandProtocolRequired :=
              vehicleInfo_VehicleCommandProtocolRequired v;
            vehicleInfo_SafetyScreenStreamingToggleEnabled :=
              vehicleInfo_SafetyScreenStreamingToggleEnabled v;
            vehicleInfo_FirmwareVersion := vehicleInfo_FirmwareVersion v;
            vehicleInfo_FleetTelemetryVersion := x;
            vehicleInfo_TotalNumberOfKeys := vehicleInfo_TotalNumberOfKeys v;
            vehicleInfo_DiscountedDeviceData := vehicleInfo_DiscountedDeviceData v |}
  else if field_matches "total_number_of_keys" key then
    x <~ decode_ptr decode_int 0%Z (vehicleInfo_TotalNumberOfKeys v) j ;;
    dret {| vehicleInfo_VehicleCommandProtocolRequired :=
              vehicleInfo_VehicleCommandProtocolRequired v;
            vehicleInfo_SafetyScreenStreamingToggleEnabled :=
              vehicleInfo_SafetyScreenStreamingToggleEnabled v;
            vehicleInfo_FirmwareVersion := vehicleInfo_FirmwareVersion v;
            vehicleInfo_FleetTelemetryVersion := vehicleInfo_FleetTelemetryVersion v;
            vehicleInfo_TotalNumberOfKeys := x;
            vehicleInfo_DiscountedDeviceData := vehicleInfo_DiscountedDeviceData v |}
  else if field_matches "discounted_device_data" key then
    x <~ decode_bool (vehicleInfo_DiscountedDeviceData v) j ;;
    dret {| vehicleInfo_VehicleCommandProtocolRequired :=
              vehicleInfo_VehicleCommandProtocolRequired v;
            vehicleInfo_SafetyScreenStreamingToggleEnabled :=
              vehicleInfo_SafetyScreenStreamingToggleEnabled v;
            vehicleInfo_FirmwareVersion := vehicleInfo_FirmwareVersion v;
            vehicleInfo_FleetTelemetryVersion := vehicleInfo_FleetTelemetryVersion v;
            vehicleInfo_TotalNumberOfKeys := vehicleInfo_TotalNumberOfKeys v;
            vehicleInfo_DiscountedDeviceData := x |}
  else dret v.

Definition decode_vehicleInfo (v : vehicleInfo) (j : json)
  : decodeState vehicleInfo :=
  match j with
  | JNull => dret v
  | JObject members => dfold decode_vehicleInfo_member v members
  | _ => saveError (UnmarshalTypeError (json_kind j) "tesla.vehicleInfo") ;;; dret v
  end.

(** A [map[string]vehicleInfo]: each member is decoded into a fresh zero
    element, stored under the member's name as it is written. *)
Definition decode_VehicleInfo_member (m : gmap string vehicleInfo)
    (kv : string * json) : decodeState (gmap string vehicleInfo) :=
  let '(key, j) := kv in
  elem <~ decode_vehicleInfo vehicleInfo_zero j ;;
  dret (<[key := elem]> m).

Definition decode_VehicleInfo (m : gmap string vehicleInfo) (j : json)
  : decodeState (gmap string vehicleInfo) :=
  match j with
  | JNull => dret ∅
  | JObject members => dfold decode_VehicleInfo_member m members
  | _ =>
      saveError (UnmarshalTypeError (json_kind j) "map[string]tesla.vehicleInfo") ;;;
      dret m
  end.

Definition decode_fleetStatus_member (v : fleetStatus) (m : string * json)
  : decodeState fleetStatus :=
  let '(key, j) := m in
  if field_matches "key_paired_vins" key then
    x <~ decode_strings (KeyPairedVINs v) j ;;
    dret {| KeyPairedVINs := x; UnpairedVINs := UnpairedVINs v;
            VehicleInfo := VehicleInfo v |}
  else if field_matches "unpaired_vins" key then
    x <~ decode_strings (UnpairedVINs v) j ;;
    dret {| KeyPairedVINs := KeyPairedVINs v; UnpairedVINs := x;
            VehicleInfo := VehicleInfo v |}
  else if field_matches "vehicle_info" key then
    x <~ decode_VehicleInfo (VehicleInfo v) j ;;
    dret {| KeyPairedVINs := KeyPairedVINs v; UnpairedVINs := UnpairedVINs v;
            VehicleInfo := x |}
  else dret v.

Definition decode_fleetStatus (v : fleetStatus) (j : json)
  : decodeState fleetStatus :=
  match j with
  | JNull => dret v
  | JObject members => dfold decode_fleetStatus_member v members
  | _ => saveError (UnmarshalTypeError (json_kind j) "tesla.fleetStatus") ;;; dret v
  end.

Definition decode_responseWrapper_member (v : responseWrapper fleetStatus)
    (m : string * json) : decodeState (responseWrapper fleetStatus) :=
  let '(key, j) := m in
  if field_matches "response" key then
    x <~ decode_fleetStatus (Response v) j ;;
    dret {| Response := x |}
  else dret v.

Definition decode_responseWrapper (v : responseWrapper fleetStatus) (j : json)
  : decodeState (responseWrapper fleetStatus) :=
  match j with
  | JNull => dret v
  | JObject members => dfold decode_responseWrapper_member v members
  | _ =>
      saveError (UnmarshalTypeError (json_kind j)
                   "tesla.responseWrapper[tesla.fleetStatus]") ;;;
      dret v
  end.

(** The request body as a JSON value, by the tag of [VINs]. *)
Definition getFleetStatusRequest_json (r : getFleetStatusRequest) : json :=
  JObject [("vins", JArray (JString <$> VINs r))].

Local Close Scope decode_scope.

(** ** Reading a document the way the decoder does *)

(** The member of an object that decides the field tagged [name]: the last
    one whose name selects the field. *)
Fixpoint last_member (name : string) (members : list (string * json))
  : option json :=
  match members with
  | [] => None
  | (key, j) :: rest =>
      match last_member name rest with
      | Some j' => Some j'
      | None => if field_matches name key then Some j else None
      end
  end.

(** [j] is written in document [doc] as the description of vehicle [vin]:
    a member named [vin] of an object under [vehicle_info], itself in an
    object under [response]. *)
Definition entry_in_document (doc : json) (vin : string) (j : json) : Prop :=
  exists top key1 inner key2 infos,
    doc = JObject top /\
    (key1, JObject inner) ∈ top /\ field_matches "response" key1 = true /\
    (key2, JObject infos) ∈ inner /\ field_matches "vehicle_info" key2 = true /\
    (vin, j) ∈ infos.

(** A decoding step never drops a saved error: it ends without one only if
    it started without one. *)
Definition keeps_error {A} (m : decodeState A) : Prop :=
  forall saved, snd (m saved) = None -> saved = None.

(** A decoding step keeps the error it starts with. *)
Definition sticky {A} (m : decodeState A) : Prop :=
  forall err, snd (m (Some err)) = Some err.

(** A decoding step ends with a saved error, whatever it starts with. *)
Definition raises {A} (m : decodeState A) : Prop :=
  forall saved, is_Some (snd (m saved)).

(** ** The Go standard library around the client *)

(** What the client takes from net/url, context and encoding/json without
    this development fixing how it is computed. *)
Class Library : Type := {
  (** a parsed URL, [url.URL] *)
  URL : Type;
  (** [url.Parse] *)
  url_Parse : string -> result URL;
  (** the method [JoinPath] of [*url.URL] *)
  URL_JoinPath : URL -> list string -> URL;
  (** the method [String] of [*url.URL] *)
  URL_String : URL -> string;
  (** a non-nil [context.Context] *)
  Ctx : Type;
  (** the scanner of encoding/json: the value a valid JSON text denotes,
      nothing on a syntax error *)
  json_scan : string -> option json;
  (** the encoder of [json.Marshal], on the value to write *)
  json_Marshal : json -> string * option error;
}.

Section Program.
Context `{Library}.

(** [json.Unmarshal(data, &v)]: the text is checked as a whole first, then
    stored into [v]; the error is the saved one. *)
Definition json_Unmarshal (data : string) (v : responseWrapper fleetStatus)
  : responseWrapper fleetStatus * option error :=
  match json_scan data with
  | None => (v, Some SyntaxError)
  | Some j => decode_responseWrapper v j None
  end.

(** A [context.Context] interface value; [None] is nil. *)
Definition context_Context : Type := option Ctx.

Definition MethodPost : string := "POST".
Definition StatusOK : Z := 200.

(** [http.Header]. *)
Definition http_Header : Type := gmap string (list string).

(** [http.Request]: its context, method, URL, header and body. *)
Record http_Request : Type := {
  Request_ctx : Ctx;
  Request_Method : string;
  Request_URL : URL;
  Request_Header : http_Header;
  Request_Body : string;
}.

(** [http.NewRequestWithContext(ctx, method, url, bytes.NewReader(body))],
    for a valid method such as [MethodPost]. *)
Definition http_NewRequestWithContext (ctx : context_Context)
    (method url : string) (body : string) : result http_Request :=
  match ctx with
  | None => Err (errorString "net/http: nil Context")
  | Some ctx =>
      match url_Parse url with
      | Err err => Err err
      | Ok u =>
          Ok {| Request_ctx := ctx; Request_Method := method; Request_URL := u;
                Request_Header := ∅; Request_Body := body |}
      end
  end.

(** [req.Header.Set(key, value)], for a [key] in canonical form. *)
Definition Header_Set (req : http_Request) (key value : string) : http_Request :=
  {| Request_ctx := Request_ctx req; Request_Method := Request_Method req;
     Request_URL := Request_URL req;
     Request_Header := <[key := [value]]> (Request_Header req);
     Request_Body := Request_Body req |}.

(** A response body, an [io.ReadCloser]: the bytes [io.ReadAll] gets from it
    and the error it stops on, if any. *)
Record ReadCloser : Type := {
  ReadCloser_data : string;
  ReadCloser_err : option error;
}.

Definition io_ReadAll (r : ReadCloser) : string * option error :=
  (ReadCloser_data r, ReadCloser_err r).

Record http_Response : Type := {
  StatusCode : Z;
  Body : ReadCloser;
}.

(** An [*http.Client], by what [Do] answers to a request. *)
Record http_Client : Type := {
  Client_Do : http_Request -> result http_Response;
}.

(** ** The client *)

Record Client : Type := {
  hc : http_Client;
  baseURL : URL;
}.

(** [type Option], a function on a [*Client]: what it does to the client it
    is given (an option is a function that returns; a nil one is not
    called). *)
Definition Option : Type := Client -> Client.

Definition WithHTTPClient (hc' : http_Client) : Option :=
  fun c => {| hc := hc'; baseURL := baseURL c |}.

Definition WithBaseURL (u : URL) : Option :=
  fun c => {| hc := hc c; baseURL := u |}.

(** The text [DefaultBaseURL] is parsed from. *)
Definition DefaultBaseURL_text : string :=
  "https://fleet-api.prd.na.vn.cloud.tesla.com".

(** The package-level variables [New] reads. *)
Class Globals : Type := {
  (** [http.DefaultClient] *)
  http_DefaultClient : http_Client;
  (** [var DefaultBaseURL, _ = url.Parse(...)] *)
  DefaultBaseURL : URL;
  DefaultBaseURL_parsed : url_Parse DefaultBaseURL_text = Ok DefaultBaseURL;
}.

Definition New `{Globals} (options : list Option) : Client :=
  let c := {| hc := http_DefaultClient; baseURL := DefaultBaseURL |} in
  fold_left (fun c opt => opt c) options c.

(** The options the package provides, by what they carry, and the last
    value a list of them carries for each field. *)
Definition provided (o : http_Client + URL) : Option :=
  match o with
  | inl h => WithHTTPClient h
  | inr u => WithBaseURL u
  end.

Definition last_HTTPClient (os : list (http_Client + URL)) : option http_Client :=
  last (omap (fun o => match o with inl h => Some h | inr _ => None end) os).

Definition last_BaseURL (os : list (http_Client + URL)) : option URL :=
  last (omap (fun o => match o with inl _ => None | inr u => Some u end) os).

(** ** Function bodies: state and early return *)

(** What a call of a method of [*Client] works on: the [Client] its receiver
    [c] points to, the requests handed to a transport (with the
    [http.Client] they were handed to) and the bodies closed, oldest
    first. *)
Record World : Type := {
  client : Client;
  sent : list (http_Client * http_Request);
  closed : list ReadCloser;
}.

Inductive flow (R A : Type) : Type :=
| Next (a : A)
| Return (r : R).
Arguments Next {R A} a.
Arguments Return {R A} r.

(** A statement of a function that returns an [R]. *)
Definition Go (R A : Type) : Type := World -> flow R A * World.

Definition next {R A} (a : A) : Go R A := fun w => (Next a, w).

Definition return_ {R A} (r : R) : Go R A := fun w => (Return r, w).

Definition bind {R A B} (m : Go R A) (k : A -> Go R B) : Go R B :=
  fun w =>
    match m w with
    | (Next a, w') => k a w'
    | (Return r, w') => (Return r, w')
    end.

(** A body; control leaves it through a [return]. *)
Definition func {R} (body : Go R R) : World -> R * World :=
  fun w =>
    match body w with
    | (Next r, w') => (r, w')
    | (Return r, w') => (r, w')
    end.

(** [if err != nil { return f(err) }] *)
Definition if_err {R} (err : option error) (f : error -> R) : Go R unit :=
  match err with
  | Some e => return_ (f e)
  | None => next tt
  end.

(** [x, err := call; if err != nil { return f(err) }] *)
Definition try {R A} (r : result A) (f : error -> R) : Go R A :=
  match r with
  | Ok a => next a
  | Err e => return_ (f e)
  end.

(** [if cond { return r }] *)
Definition if_return {R} (cond : bool) (r : R) : Go R unit :=
  if cond then return_ r else next tt.

(** [c.baseURL] and [c.hc] *)
Definition c_baseURL {R} : Go R URL := fun w => (Next (baseURL (client w)), w).
Definition c_hc {R} : Go R http_Client := fun w => (Next (hc (client w)), w).

(** [h.Do(req)] *)
Definition Do {R} (h : http_Client) (req : http_Request)
  : Go R (result http_Response) :=
  fun w =>
    (Next (Client_Do h req),
     {| client := client w; sent := sent w ++ [(h, req)]; closed := closed w |}).

(** [body.Close()] *)
Definition Close {R} (body : ReadCloser) : Go R unit :=
  fun w =>
    (Next tt,
     {| client := client w; sent := sent w; closed := closed w ++ [body] |}).

Declare Scope go_scope.
Delimit Scope go_scope with go.
Notation "x <- m ;; k" := (bind m (fun x => k))
  (at level 100, m at next level, right associativity) : go_scope.
Notation "m ;; k" := (bind m (fun _ => k))
  (at level 100, right associativity) : go_scope.

(** ** GetFleetStatus *)

Record FleetStatus : Type := {
  KeyPaired : bool;
  VehicleCommandProtocolRequired : bool;
  SafetyScreenStreamingToggleEnabled : option bool;
  FirmwareVersion : string;
  FleetTelemetryVersion : option string;
  TotalNumberOfKeys : option Z;
  DiscountedDeviceData : bool;
}.

Local Open Scope go_scope.

(** [func (c *Client) GetFleetStatus(ctx, token, vin)], run in a world whose
    [client] is what [c] points to. *)
Definition GetFleetStatus (ctx : context_Context) (token vin : string)
  : World -> (option FleetStatus * option error) * World :=
  func (
    let reqBody := {| VINs := [vin] |} in
    let '(reqBytes, err) := json_Marshal (getFleetStatusRequest_json reqBody) in
    if_err err (fun err =>
      (None, Some (fmt_Errorf_w "failed to serialize request body: " err))) ;;

    base <- c_baseURL ;;
    let u := URL_JoinPath base ["api/1/vehicles/fleet_status"] in

    req <- try (http_NewRequestWithContext ctx MethodPost (URL_String u) reqBytes)
             (fun err => (None, Some (fmt_Errorf_w "failed to construct request: " err))) ;;

    let req := Header_Set req "Authorization" ("Bearer " +:+ token) in
    let req := Header_Set req "Content-Type" "application/json" in

    h <- c_hc ;;
    r <- Do h req ;;
    resp <- try r (fun err => (None, Some (fmt_Errorf_w "request failed: " err))) ;;
    let '(respBytes, err) := io_ReadAll (Body resp) in
    Close (Body resp) ;;
    if_err err (fun err =>
      (None, Some (fmt_Errorf_w "failed to read response body: " err))) ;;

    if_return (negb (StatusCode resp =? StatusOK)%Z)
      (None, Some (fmt_Errorf_d "status code " (StatusCode resp))) ;;

    let '(respBody, err) := json_Unmarshal respBytes responseWrapper_zero in
    if_err err (fun err =>
      (None, Some (fmt_Errorf_w "failed to parse response body: " err))) ;;

    let fs := default vehicleInfo_zero (VehicleInfo (Response respBody) !! vin) in

    return_
      (Some {|
         KeyPaired := (length (KeyPairedVINs (Response respBody)) =? 1)%nat;
         VehicleCommandProtocolRequired := vehicleInfo_VehicleCommandProtocolRequired fs;
         SafetyScreenStreamingToggleEnabled :=
           vehicleInfo_SafetyScreenStreamingToggleEnabled fs;
         FirmwareVersion := vehicleInfo_FirmwareVersion fs;
         FleetTelemetryVersion := vehicleInfo_FleetTelemetryVersion fs;
         TotalNumberOfKeys := vehicleInfo_TotalNumberOfKeys fs;
         DiscountedDeviceData := vehicleInfo_DiscountedDeviceData fs;
       |}, None)).

Local Close Scope go_scope.

End Program.

(** ** A concrete library and transports, for running the client *)

Module Fixture.

(** A writer of JSON texts (no character of the strings written below needs
    an escape). *)
Definition dq : string := String (ascii_of_N 34) EmptyString.

Fixpoint write (j : json) : string :=
  match j with
  | JNull => "null"
  | JBool true => "true"
  | JBool false => "false"
  | JNumber lit => lit
  | JString s => dq +:+ s +:+ dq
  | JArray elems =>
      "[" +:+
      (fix items (l : list json) : string :=
         match l with
         | [] => ""
         | [x] => write x
         | x :: rest => write x +:+ "," +:+ items rest
         end) elems +:+ "]"
  | JObject members =>
      "{" +:+
      (fix items (l : list (string * json)) : string :=
         match l with
         | [] => ""
         | [(k, x)] => dq +:+ k +:+ dq +:+ ":" +:+ write x
         | (k, x) :: rest => dq +:+ k +:+ dq +:+ ":" +:+ write x +:+ "," +:+ items rest
         end) members +:+ "}"
  end.

Definition vin1 : string := "5YJ3E1EA1JF000001".
Definition vin2 : string := "7SAYGDEE0PA000002".

Definition info1 : json :=
  JObject [("vehicle_command_protocol_required", JBool true);
           ("safety_screen_streaming_toggle_enabled", JNull);
           ("firmware_version", JString "2024.8.1");
           ("fleet_telemetry_version", JNull);
           ("total_number_of_keys", JNumber "3");
           ("discounted_device_data", JBool false)].

(** [vin1] paired, described under [vehicle_info]. *)
Definition doc_paired : json :=
  JObject [("response", JObject [
     ("key_paired_vins", JArray [JString vin1]);
     ("unpaired_vins", JArray []);
     ("vehicle_info", JObject [(vin1, info1)])])].

(** The same entry for [vin1], next to another vehicle: one paired VIN, which
    is not [vin1]. *)
Definition doc_other_paired : json :=
  JObject [("response", JObject [
     ("key_paired_vins", JArray [JString vin2]);
     ("unpaired_vins", JArray [JString vin1]);
     ("vehicle_info", JObject [
        (vin2, JObject [("firmware_version", JString "2023.44")]);
        (vin1, info1)])])].

(** No entry at all under [vehicle_info]. *)
Definition doc_no_info : json :=
  JObject [("response", JObject [
     ("key_paired_vins", JArray [JString vin2]);
     ("unpaired_vins", JArray []);
     ("vehicle_info", JObject [])])].

Definition documents : list json := [doc_paired; doc_other_paired; doc_no_info].

(** The scanner knows the documents above by their text. *)
Definition scan (text : string) : option json :=
  List.find (fun d => String.eqb (write d) text) documents.

Fixpoint has_space (s : string) : bool :=
  match s with
  | EmptyString => false
  | String c rest => Ascii.eqb c " " || has_space rest
  end.

(** URLs kept as their text; a text with a space does not parse. *)
Definition library : Library := {|
  URL := string;
  url_Parse := fun s =>
    if has_space s then Err (errorString "net/url: invalid character in host name")
    else Ok s;
  URL_JoinPath := fun u elems => u +:+ "/" +:+ String.concat "/" elems;
  URL_String := fun u => u;
  Ctx := unit;
  json_scan := scan;
  json_Marshal := fun j => (write j, None);
|}.

#[local] Existing Instance library.

(** A transport that answers every request the same way. *)
Definition answering (r : result http_Response) : http_Client :=
  {| Client_Do := fun _ => r |}.

Definition intact (data : string) : ReadCloser :=
  {| ReadCloser_data := data; ReadCloser_err := None |}.

Definition broken (data : string) : ReadCloser :=
  {| ReadCloser_data := data;
     ReadCloser_err := Some (errorString "unexpected EOF") |}.

Definition resp_paired : http_Response :=
  {| StatusCode := 200; Body := intact (write doc_paired) |}.
Definition resp_other_paired : http_Response :=
  {| StatusCode := 200; Body := intact (write doc_other_paired) |}.
Definition resp_no_info : http_Response :=
  {| StatusCode := 200; Body := intact (write doc_no_info) |}.
Definition resp_forbidden : http_Response :=
  {| StatusCode := 403; Body := intact "Forbidden" |}.
Definition resp_unavailable_broken : http_Response :=
  {| StatusCode := 503; Body := broken "Service Unav" |}.

Definition globals : Globals := {|
  http_DefaultClient :=
    answering (Err (errorString "dial tcp: lookup failed"));
  DefaultBaseURL := DefaultBaseURL_text;
  DefaultBaseURL_parsed := eq_refl;
|}.

#[local] Existing Instance globals.

Definition background : context_Context := Some tt.

(** The world in which a method is called on client [c] for the first
    time. *)
Definition fresh (c : Client) : World :=
  {| client := c; sent := []; closed := [] |}.

(** A client of [New] with the transport replaced. *)
Definition client_of (r : result http_Response) : Client :=
  New [WithHTTPClient (answering r)].

(** The request a call for [vin] with [token] is expected to build on such a
    client. *)
Definition request_for (token vin : string) : http_Request :=
  {| Request_ctx := tt;
     Request_Method := "POST";
     Request_URL :=
       "https://fleet-api.prd.na.vn.cloud.tesla.com/api/1/vehicles/fleet_status";
     Request_Header :=
       <["Content-Type" := ["application/json"]]>
         (<["Authorization" := ["Bearer " +:+ token]]> ∅);
     Request_Body := write (JObject [("vins", JArray [JString vin])]) |}.

(** The entry of [vin1] and the documents, as [json.Unmarshal] stores
    them. *)
Definition parsed_info1 : vehicleInfo :=
  {| vehicleInfo_VehicleCommandProtocolRequired := true;
     vehicleInfo_SafetyScreenStreamingToggleEnabled := None;
     vehicleInfo_FirmwareVersion := "2024.8.1";
     vehicleInfo_FleetTelemetryVersion := None;
     vehicleInfo_TotalNumberOfKeys := Some 3%Z;
     vehicleInfo_DiscountedDeviceData := false |}.

Definition parsed_paired : responseWrapper fleetStatus :=
  {| Response :=
       {| KeyPairedVINs := [vin1]; UnpairedVINs := [];
          VehicleInfo := {[ vin1 := parsed_info1 ]} |} |}.

Definition parsed_other_paired : responseWrapper fleetStatus :=
  {| Response :=
       {| KeyPairedVINs := [vin2]; UnpairedVINs := [vin1];
          VehicleInfo :=
            <[vin1 := parsed_info1]>
              {[ vin2 :=
                   {| vehicleInfo_VehicleCommandProtocolRequired := false;
                      vehicleInfo_SafetyScreenStreamingToggleEnabled := None;
                      vehicleInfo_FirmwareVersion := "2023.44";
                      vehicleInfo_FleetTelemetryVersion := None;
                      vehicleInfo_TotalNumberOfKeys := None;
                      vehicleInfo_DiscountedDeviceData := false |} ]} |} |}.

Definition parsed_no_info : responseWrapper fleetStatus :=
  {| Response :=
       {| KeyPairedVINs := [vin2]; UnpairedVINs := []; VehicleInfo := ∅ |} |}.

(** The result for [vin1] out of [parsed_paired]. *)
Definition status1 : FleetStatus :=
  {| KeyPaired := true;
     VehicleCommandProtocolRequired := true;
     SafetyScreenStreamingToggleEnabled := None;
     FirmwareVersion := "2024.8.1";
     FleetTelemetryVersion := None;
     TotalNumberOfKeys := Some 3%Z;
     DiscountedDeviceData := false |}.

End Fixture.

(** ** Further documents, for the same purpose *)

Module Cases.

Import Fixture.

(** [unpaired_vins] is a string. *)
Definition doc_bad_unpaired : json :=
  JObject [("response", JObject [
     ("key_paired_vins", JArray [JString vin1]);
     ("unpaired_vins", JString "none");
     ("vehicle_info", JObject [(vin1, info1)])])].

(** The description of [vin2] is an array. *)
Definition doc_bad_entry : json :=
  JObject [("response", JObject [
     ("key_paired_vins", JArray [JString vin1]);
     ("unpaired_vins", JArray []);
     ("vehicle_info", JObject [(vin1, info1); (vin2, JArray [])])])].

(** No member [response]. *)
Definition doc_no_envelope : json :=
  JObject [("error", JString "not_found"); ("error_description", JString "")].

(** Two paired VINs. *)
Definition doc_two_paired : json :=
  JObject [("response", JObject [
     ("key_paired_vins", JArray [JString vin1; JString vin2]);
     ("unpaired_vins", JArray []);
     ("vehicle_info", JObject [(vin1, info1)])])].

(** [vin1] described under its lower-case spelling. *)
Definition vin1_lower : string := "5yj3e1ea1jf000001".

Definition doc_lower_vin : json :=
  JObject [("response", JObject [
     ("key_paired_vins", JArray [JString vin1]);
     ("unpaired_vins", JArray []);
     ("vehicle_info", JObject [(vin1_lower, info1)])])].

Definition documents : list json :=
  [doc_bad_unpaired; doc_bad_entry; doc_no_envelope; doc_two_paired;
   doc_lower_vin].

Definition scan (text : string) : option json :=
  List.find (fun d => String.eqb (write d) text) documents.

(** The library of [Fixture], with a scanner for the documents above. *)
Definition library : Library := {|
  URL := @URL Fixture.library;
  url_Parse := @url_Parse Fixture.library;
  URL_JoinPath := @URL_JoinPath Fixture.library;
  URL_String := @URL_String Fixture.library;
  Ctx := @Ctx Fixture.library;
  json_scan := scan;
  json_Marshal := @json_Marshal Fixture.library;
|}.

#[local] Existing Instance library.

Definition answering (r : result http_Response) : http_Client :=
  {| Client_Do := fun _ => r |}.

Definition ok200 (doc : json) : http_Response :=
  {| StatusCode := 200; Body := intact (write doc) |}.

Definition globals : Globals := {|
  http_DefaultClient :=
    answering (Err (errorString "dial tcp: lookup failed"));
  DefaultBaseURL := DefaultBaseURL_text;
  DefaultBaseURL_parsed := eq_refl;
|}.

#[local] Existing Instance globals.

Definition background : context_Context := Some tt.

Definition fresh (c : Client) : World :=
  {| client := c; sent := []; closed := [] |}.

Definition client_of (r : result http_Response) : Client :=
  New [WithHTTPClient (answering r)].

Definition request_for (token vin : string) : http_Request :=
  {| Request_ctx := tt;
     Request_Method := "POST";
     Request_URL :=
       "https://fleet-api.prd.na.vn.cloud.tesla.com/api/1/vehicles/fleet_status";
     Request_Header :=
       <["Content-Type" := ["application/json"]]>
         (<["Authorization" := ["Bearer " +:+ token]]> ∅);
     Request_Body := write (JObject [("vins", JArray [JString vin])]) |}.

End Cases.

(** ** A well-formed and an ill-typed document side by side *)

Module Mixed.

Definition documents : list json := [Fixture.doc_paired; Cases.doc_bad_unpaired].

Definition scan (text : string) : option json :=
  List.find (fun d => String.eqb (Fixture.write d) text) documents.

(** The library of [Fixture], with a scanner for these two documents. *)
Definition library : Library := {|
  URL := @URL Fixture.library;
  url_Parse := @url_Parse Fixture.library;
  URL_JoinPath := @URL_JoinPath Fixture.library;
  URL_String := @URL_String Fixture.library;
  Ctx := @Ctx Fixture.library;
  json_scan := scan;
  json_Marshal := @json_Marshal Fixture.library;
|}.

#[local] Existing Instance library.

Definition answering (r : result http_Response) : http_Client :=
  {| Client_Do := fun _ => r |}.

Definition globals : Globals := {|
  http_DefaultClient :=
    answering (Err (errorString "dial tcp: lookup failed"));
  DefaultBaseURL := DefaultBaseURL_text;
  DefaultBaseURL_parsed := eq_refl;
|}.

#[local] Existing Instance globals.

Definition background : context_Context := Some tt.

Definition fresh (c : Client) : World :=
  {| client := c; sent := []; closed := [] |}.

Definition client_of (r : result http_Response) : Client :=
  New [WithHTTPClient (answering r)].

End Mixed.

(** * Properties of the decoders *)

Section Decoding.

Lemma keeps_dret {A} (a : A) : keeps_error (dret a).
Proof. intros s E. exact E. Qed.

Lemma keeps_dbind {A B} (m : decodeState A) (k : A -> decodeState B) :
  keeps_error m -> (forall a, keeps_error (k a)) -> keeps_error (dbind m k).
Proof.
  intros Hm Hk s. unfold dbind. destruct (m s) as [a s'] eqn:E.
  intros E'. apply Hk in E'. subst s'. apply Hm. rewrite E. reflexivity.
Qed.

Lemma keeps_error_saved {A} (err : error) (a : A) :
  keeps_error (dbind (saveError err) (fun _ => dret a)).
Proof. intros [e|]; cbn; [discriminate|discriminate]. Qed.

Lemma keeps_dfold {A B} (f : A -> B -> decodeState A) (l : list B) :
  (forall a b, keeps_error (f a b)) -> forall a, keeps_error (dfold f a l).
Proof.
  intros Hf. induction l as [|b l IH]; intros a; cbn.
  - apply keeps_dret.
  - apply keeps_dbind; auto.
Qed.

Create HintDb keeps discriminated.
#[local] Hint Resolve keeps_dret keeps_error_saved : keeps.
#[local] Hint Extern 2 (keeps_error (dbind _ _)) =>
  apply keeps_dbind; [|intros ?] : keeps.

Lemma keeps_decode_bool v j : keeps_error (decode_bool v j).
Proof. destruct j; cbn; auto with keeps. Qed.

Lemma keeps_decode_string v j : keeps_error (decode_string v j).
Proof. destruct j; cbn; auto with keeps. Qed.

Lemma keeps_decode_int v j : keeps_error (decode_int v j).
Proof.
  destruct j; cbn; auto with keeps.
  destruct (strconv_ParseInt lit); auto with keeps.
Qed.

Lemma keeps_decode_ptr {A} (dec : A -> json -> decodeState A) zero v j :
  (forall a j', keeps_error (dec a j')) -> keeps_error (decode_ptr dec zero v j).
Proof. intros Hdec. destruct j; cbn; auto with keeps. Qed.

#[local] Hint Resolve keeps_decode_bool keeps_decode_string keeps_decode_int : keeps.

(** Splits on the next test of a member name against a tag. *)
Ltac member_test :=
  match goal with
  | |- context [if field_matches ?name ?key then _ else _] =>
      destruct (field_matches name key) eqn:?
  end.

#[local] Hint Extern 1 (keeps_error (decode_ptr _ _ _ _)) =>
  apply keeps_decode_ptr; intros ? ? : keeps.

Lemma keeps_decode_elems elems : forall v, keeps_error (decode_elems v elems).
Proof. induction elems as [|j elems IH]; intros v; cbn; auto with keeps. Qed.

Lemma keeps_decode_strings v j : keeps_error (decode_strings v j).
Proof. destruct j; cbn; auto using keeps_decode_elems with keeps. Qed.

Lemma keeps_decode_vehicleInfo_member v m :
  keeps_error (decode_vehicleInfo_member v m).
Proof.
  destruct m as [key j]. unfold decode_vehicleInfo_member.
  repeat (member_test; [auto with keeps|]).
  auto with keeps.
Qed.

Lemma keeps_decode_vehicleInfo v j : keeps_error (decode_vehicleInfo v j).
Proof.
  destruct j; cbn; auto with keeps.
  apply keeps_dfold, keeps_decode_vehicleInfo_member.
Qed.

Lemma keeps_decode_VehicleInfo_member m kv :
  keeps_error (decode_VehicleInfo_member m kv).
Proof.
  destruct kv as [key j]. unfold decode_VehicleInfo_member.
  apply keeps_dbind; [apply keeps_decode_vehicleInfo|auto with keeps].
Qed.

Lemma keeps_decode_VehicleInfo m j : keeps_error (decode_VehicleInfo m j).
Proof.
  destruct j; cbn; auto with keeps.
  apply keeps_dfold, keeps_decode_VehicleInfo_member.
Qed.

Lemma keeps_decode_fleetStatus_member v m :
  keeps_error (decode_fleetStatus_member v m).
Proof.
  destruct m as [key j]. unfold decode_fleetStatus_member.
  repeat (member_test;
          [apply keeps_dbind;
           [first [apply keeps_decode_strings | apply keeps_decode_VehicleInfo]
           |auto with keeps]|]).
  auto with keeps.
Qed.

Lemma keeps_decode_fleetStatus v j : keeps_error (decode_fleetStatus v j).
Proof.
  destruct j; cbn; auto with keeps.
  apply keeps_dfold, keeps_decode_fleetStatus_member.
Qed.

Lemma keeps_decode_responseWrapper_member v m :
  keeps_error (decode_responseWrapper_member v m).
Proof.
  destruct m as [key j]. unfold decode_responseWrapper_member.
  member_test; [|auto with keeps].
  apply keeps_dbind; [apply keeps_decode_fleetStatus|auto with keeps].
Qed.

(** A name selects at most one of several fields whose folded tags differ. *)
Lemma field_matches_fold name key :
  field_matches name key = true -> foldName key = foldName name.
Proof.
  unfold field_matches. intros E. apply orb_true_iff in E as [E|E].
  - apply String.eqb_eq in E. congruence.
  - apply String.eqb_eq in E. exact E.
Qed.


(** Two tags whose folded forms differ cannot both be selected. *)
Ltac clash :=
  match goal with
  | E1 : field_matches ?n1 ?k = true, E2 : field_matches ?n2 ?k = true |- _ =>
      apply field_matches_fold in E1, E2; rewrite E1 in E2;
      vm_compute in E2; discriminate
  end.

(** Settles what [decode_vehicleInfo_member] does to one field, given whether
    the member's name selects it. *)
Ltac member_field :=
  intros; unfold decode_vehicleInfo_member;
  repeat member_test; try congruence; try clash;
  unfold dbind, dret;
  repeat match goal with
  | |- context [let '(_, _) := ?m in _] => destruct m
  end;
  reflexivity.

Section LastMember.
Context {C : Type} (get : vehicleInfo -> C) (name : string)
  (store : C -> json -> decodeState C).
Hypothesis hit : forall v key j s,
  field_matches name key = true ->
  (get (fst (decode_vehicleInfo_member v (key, j) s)),
   snd (decode_vehicleInfo_member v (key, j) s)) = store (get v) j s.
Hypothesis frame : forall v key j s,
  field_matches name key = false ->
  get (fst (decode_vehicleInfo_member v (key, j) s)) = get v.

(** After an object has been stored without error, a field is what storing
    the last member that selects it gave, and what it was when no member
    selects it. *)
Lemma last_member_decides members : forall v s info,
  dfold decode_vehicleInfo_member v members s = (info, None) ->
  match last_member name members with
  | None => get info = get v
  | Some j => exists c, store c j None = (get info, None)
  end.
Proof.
  induction members as [|[key j] rest IH]; intros v s info E;
    cbn [dfold last_member] in *.
  - unfold dret in E. congruence.
  - unfold dbind at 1 in E.
    destruct (decode_vehicleInfo_member v (key, j) s) as [v1 s1] eqn:E1.
    pose proof (IH _ _ _ E) as IH'.
    destruct (last_member name rest) as [j'|]; [exact IH'|].
    assert (s1 = None) as ->.
    { apply (keeps_dfold _ rest keeps_decode_vehicleInfo_member v1).
      rewrite E. reflexivity. }
    assert (s = None) as ->.
    { apply (keeps_decode_vehicleInfo_member v (key, j)). rewrite E1. reflexivity. }
    destruct (field_matches name key) eqn:Ek.
    + exists (get v). rewrite <- (hit _ _ _ _ Ek), E1, IH'. reflexivity.
    + rewrite IH', <- (frame v key j None Ek), E1. reflexivity.
Qed.

End LastMember.

Lemma stored_ptr_bool c j x :
  decode_ptr decode_bool false c j None = (x, None) ->
  x = match j with JBool b => Some b | _ => None end.
Proof. destruct j; cbn; intros [= <-]; reflexivity. Qed.

Lemma stored_ptr_string c j x :
  decode_ptr decode_string "" c j None = (x, None) ->
  x = match j with JString s => Some s | _ => None end.
Proof. destruct j; cbn; intros [= <-]; reflexivity. Qed.

Lemma stored_ptr_int c j x :
  decode_ptr decode_int 0%Z c j None = (x, None) ->
  x = match j with JNumber lit => strconv_ParseInt lit | _ => None end.
Proof.
  destruct j; cbn; try (intros [= <-]; reflexivity).
  destruct (strconv_ParseInt lit); cbn; intros [= <-]; reflexivity.
Qed.

Lemma stored_bool c j x :
  decode_bool c j None = (x, None) ->
  match j with JBool b => x = b | JNull => x = c | _ => False end.
Proof. destruct j; cbn; intros [= <-]; reflexivity. Qed.

Lemma stored_string c j x :
  decode_string c j None = (x, None) ->
  match j with JString s => x = s | JNull => x = c | _ => False end.
Proof. destruct j; cbn; intros [= <-]; reflexivity. Qed.

(** What a [vehicleInfo] holds after a JSON object has been stored, without
    error, into a zero value: an optional field is present exactly when the
    member that decides it is not [null], with that member's value; a bool or
    string field has the value of the member that decides it, and the zero
    value when no member selects it. *)
Lemma decode_vehicleInfo_object members info :
  decode_vehicleInfo vehicleInfo_zero (JObject members) None = (info, None) ->
  vehicleInfo_SafetyScreenStreamingToggleEnabled info =
    match last_member "safety_screen_streaming_toggle_enabled" members with
    | Some (JBool b) => Some b
    | _ => None
    end /\
  vehicleInfo_FleetTelemetryVersion info =
    match last_member "fleet_telemetry_version" members with
    | Some (JString s) => Some s
    | _ => None
    end /\
  vehicleInfo_TotalNumberOfKeys info =
    match last_member "total_number_of_keys" members with
    | Some (JNumber lit) => strconv_ParseInt lit
    | _ => None
    end /\
  match last_member "vehicle_command_protocol_required" members with
  | Some (JBool b) => vehicleInfo_VehicleCommandProtocolRequired info = b
  | Some _ => True
  | None => vehicleInfo_VehicleCommandProtocolRequired info = false
  end /\
  match last_member "firmware_version" members with
  | Some (JString s) => vehicleInfo_FirmwareVersion info = s
  | Some _ => True
  | None => vehicleInfo_FirmwareVersion info = ""
  end /\
  match last_member "discounted_device_data" members with
  | Some (JBool b) => vehicleInfo_DiscountedDeviceData info = b
  | Some _ => True
  | None => vehicleInfo_DiscountedDeviceData info = false
  end.
Proof.
  cbn [decode_vehicleInfo]. intros E.
  pose proof (last_member_decides vehicleInfo_SafetyScreenStreamingToggleEnabled
    "safety_screen_streaming_toggle_enabled" (decode_ptr decode_bool false)
    ltac:(member_field) ltac:(member_field) members _ _ _ E) as H1.
  pose proof (last_member_decides vehicleInfo_FleetTelemetryVersion
    "fleet_telemetry_version" (decode_ptr decode_string "")
    ltac:(member_field) ltac:(member_field) members _ _ _ E) as H2.
  pose proof (last_member_decides vehicleInfo_TotalNumberOfKeys
    "total_number_of_keys" (decode_ptr decode_int 0%Z)
    ltac:(member_field) ltac:(member_field) members _ _ _ E) as H3.
  pose proof (last_member_decides vehicleInfo_VehicleCommandProtocolRequired
    "vehicle_command_protocol_required" decode_bool
    ltac:(member_field) ltac:(member_field) members _ _ _ E) as H4.
  pose proof (last_member_decides vehicleInfo_FirmwareVersion
    "firmware_version" decode_string
    ltac:(member_field) ltac:(member_field) members _ _ _ E) as H5.
  pose proof (last_member_decides vehicleInfo_DiscountedDeviceData
    "discounted_device_data" decode_bool
    ltac:(member_field) ltac:(member_field) members _ _ _ E) as H6.
  repeat split;
    match goal with
    | |- context [last_member ?name members] =>
        match goal with
        | Hn : match last_member name members with _ => _ end |- _ =>
            destruct (last_member name members) as [j|]; [|exact Hn];
            destruct Hn as [c Hn]
        end
    end.
  - exact (stored_ptr_bool _ _ _ H1).
  - exact (stored_ptr_string _ _ _ H2).
  - exact (stored_ptr_int _ _ _ H3).
  - apply stored_bool in H4. destruct j; auto.
  - apply stored_string in H5. destruct j; auto.
  - apply stored_bool in H6. destruct j; auto.
Qed.

(** Where a property of the value built by a loop comes from: the value the
    loop started with, or a step for one of the elements. *)
Lemma dfold_origin {A B} (f : A -> B -> decodeState A) (P : A -> Prop)
    (Q : B -> Prop) :
  (forall a b, keeps_error (f a b)) ->
  (forall a b a', f a b None = (a', None) -> P a' -> P a \/ Q b) ->
  forall l a s a', dfold f a l s = (a', None) -> P a' ->
    P a \/ exists b, b ∈ l /\ Q b.
Proof.
  intros Hkeeps Hstep. induction l as [|b l IH]; intros a s a' E Ha';
    cbn [dfold] in E.
  - unfold dret in E. left. congruence.
  - unfold dbind in E. destruct (f a b s) as [a1 s1] eqn:E1.
    assert (s1 = None) as ->.
    { apply (keeps_dfold f l Hkeeps a1). rewrite E. reflexivity. }
    assert (s = None) as ->.
    { apply (Hkeeps a b). rewrite E1. reflexivity. }
    destruct (IH _ _ _ E Ha') as [Ha1|(b' & Hin & Hb')].
    + destruct (Hstep _ _ _ E1 Ha1) as [Ha|Hb]; [left; exact Ha|].
      right. exists b. split; [left|exact Hb].
    + right. exists b'. split; [right; exact Hin|exact Hb'].
Qed.

Lemma decode_VehicleInfo_origin m j m' vin info :
  decode_VehicleInfo m j None = (m', None) ->
  m' !! vin = Some info ->
  m !! vin = Some info \/
  exists infos j', j = JObject infos /\ (vin, j') ∈ infos /\
    decode_vehicleInfo vehicleInfo_zero j' None = (info, None).
Proof.
  destruct j; cbn [decode_VehicleInfo]; try (cbn; discriminate).
  - intros [= <-]. rewrite lookup_empty. discriminate.
  - intros E Hinfo.
    assert (Hstep : forall a (kv : string * json) a',
      decode_VehicleInfo_member a kv None = (a', None) ->
      a' !! vin = Some info ->
      a !! vin = Some info \/
      (fst kv = vin /\
       decode_vehicleInfo vehicleInfo_zero (snd kv) None = (info, None))).
    { clear. intros a [key j'] a'. unfold decode_VehicleInfo_member, dbind, dret.
      destruct (decode_vehicleInfo vehicleInfo_zero j' None) as [elem s'] eqn:Ed.
      intros [= <- ->]. rewrite lookup_insert. case_decide.
      - intros [= ->]. right. split; [auto|exact Ed].
      - left. assumption. }
    destruct (dfold_origin _ _ _ keeps_decode_VehicleInfo_member Hstep
                _ _ _ _ E Hinfo) as [Hm|([key j'] & Hin & <- & Hdec)]; auto.
    right. exists members, j'. auto.
Qed.

Lemma decode_fleetStatus_origin v j v' vin info :
  decode_fleetStatus v j None = (v', None) ->
  VehicleInfo v' !! vin = Some info ->
  VehicleInfo v !! vin = Some info \/
  exists inner key2 infos j',
    j = JObject inner /\
    (key2, JObject infos) ∈ inner /\ field_matches "vehicle_info" key2 = true /\
    (vin, j') ∈ infos /\
    decode_vehicleInfo vehicleInfo_zero j' None = (info, None).
Proof.
  destruct j; cbn [decode_fleetStatus]; try (cbn; discriminate).
  - intros [= <-]. auto.
  - intros E Hinfo.
    assert (Hstep : forall a (kv : string * json) a',
      decode_fleetStatus_member a kv None = (a', None) ->
      VehicleInfo a' !! vin = Some info ->
      VehicleInfo a !! vin = Some info \/
      (field_matches "vehicle_info" (fst kv) = true /\
       exists infos j', snd kv = JObject infos /\ (vin, j') ∈ infos /\
         decode_vehicleInfo vehicleInfo_zero j' None = (info, None))).
    { clear. intros a [key j] a'. unfold decode_fleetStatus_member.
      repeat member_test; unfold dbind, dret.
      - destruct (decode_strings _ _ _). intros [= <- _]. auto.
      - destruct (decode_strings _ _ _). intros [= <- _]. auto.
      - destruct (decode_VehicleInfo _ _ _) as [m' s'] eqn:Ed.
        intros [= <- ->]. cbn [VehicleInfo]. intros Hm'.
        destruct (decode_VehicleInfo_origin _ _ _ _ _ Ed Hm') as [?|?]; auto.
      - intros [= <-]. auto. }
    destruct (dfold_origin _ _ _ keeps_decode_fleetStatus_member Hstep
                _ _ _ _ E Hinfo)
      as [Hm|([key j] & Hin & Hkey & infos & j' & Hj & Hj' & Hdec)]; auto.
    cbn [fst snd] in *. subst j.
    right. exists members, key, infos, j'. auto.
Qed.

Lemma decode_responseWrapper_origin j v' vin info :
  decode_responseWrapper responseWrapper_zero j None = (v', None) ->
  VehicleInfo (Response v') !! vin = Some info ->
  exists j', entry_in_document j vin j' /\
    decode_vehicleInfo vehicleInfo_zero j' None = (info, None).
Proof.
  destruct j; cbn [decode_responseWrapper]; try (cbn; discriminate).
  - intros [= <-]. cbn. rewrite lookup_empty. discriminate.
  - intros E Hinfo.
    assert (Hstep : forall a (kv : string * json) a',
      decode_responseWrapper_member a kv None = (a', None) ->
      VehicleInfo (Response a') !! vin = Some info ->
      VehicleInfo (Response a) !! vin = Some info \/
      (field_matches "response" (fst kv) = true /\
       exists inner key2 infos j', snd kv = JObject inner /\
         (key2, JObject infos) ∈ inner /\
         field_matches "vehicle_info" key2 = true /\ (vin, j') ∈ infos /\
         decode_vehicleInfo vehicleInfo_zero j' None = (info, None))).
    { clear. intros a [key j] a'. unfold decode_responseWrapper_member.
      member_test; unfold dbind, dret.
      - destruct (decode_fleetStatus _ _ _) as [x s'] eqn:Ed.
        intros [= <- ->]. cbn [Response]. intros Hx.
        destruct (decode_fleetStatus_origin _ _ _ _ _ Ed Hx) as [?|?]; auto.
      - intros [= <-]. auto. }
    destruct (dfold_origin _ _ _ keeps_decode_responseWrapper_member Hstep
                _ _ _ _ E Hinfo)
      as [Hm|([key j] & Hin & Hkey & inner & key2 & infos & j' & Hj & Hin2
               & Hkey2 & Hin3 & Hdec)].
    + cbn in Hm. rewrite lookup_empty in Hm. discriminate.
    + cbn [fst snd] in *. subst j. exists j'. split; [|exact Hdec].
      exists members, key, inner, key2, infos. auto 10.
Qed.

(** ** Errors once saved stay *)

Lemma sticky_dret {A} (a : A) : sticky (dret a).
Proof. intros e. reflexivity. Qed.

Lemma sticky_dbind {A B} (m : decodeState A) (k : A -> decodeState B) :
  sticky m -> (forall a, sticky (k a)) -> sticky (dbind m k).
Proof.
  intros Hm Hk e. unfold dbind. pose proof (Hm e) as E.
  destruct (m (Some e)) as [a s']. cbn in E. subst s'. apply Hk.
Qed.

Lemma sticky_saved {A} (err : error) (a : A) :
  sticky (dbind (saveError err) (fun _ => dret a)).
Proof. intros e. reflexivity. Qed.

Lemma sticky_dfold {A B} (f : A -> B -> decodeState A) (l : list B) :
  (forall a b, sticky (f a b)) -> forall a, sticky (dfold f a l).
Proof.
  intros Hf. induction l as [|b l IH]; intros a; cbn.
  - apply sticky_dret.
  - apply sticky_dbind; auto.
Qed.

Create HintDb sticky discriminated.
#[local] Hint Resolve sticky_dret sticky_saved : sticky.
#[local] Hint Extern 2 (sticky (dbind _ _)) =>
  apply sticky_dbind; [|intros ?] : sticky.

Lemma sticky_decode_bool v j : sticky (decode_bool v j).
Proof. destruct j; cbn; auto with sticky. Qed.

Lemma sticky_decode_string v j : sticky (decode_string v j).
Proof. destruct j; cbn; auto with sticky. Qed.

Lemma sticky_decode_int v j : sticky (decode_int v j).
Proof.
  destruct j; cbn; auto with sticky.
  destruct (strconv_ParseInt lit); auto with sticky.
Qed.

Lemma sticky_decode_ptr {A} (dec : A -> json -> decodeState A) zero v j :
  (forall a j', sticky (dec a j')) -> sticky (decode_ptr dec zero v j).
Proof. intros Hdec. destruct j; cbn; auto with sticky. Qed.

#[local] Hint Resolve sticky_decode_bool sticky_decode_string sticky_decode_int
  : sticky.
#[local] Hint Extern 1 (sticky (decode_ptr _ _ _ _)) =>
  apply sticky_decode_ptr; intros ? ? : sticky.

Lemma sticky_decode_elems elems : forall v, sticky (decode_elems v elems).
Proof. induction elems as [|j elems IH]; intros v; cbn; auto with sticky. Qed.

Lemma sticky_decode_strings v j : sticky (decode_strings v j).
Proof. destruct j; cbn; auto using sticky_decode_elems with sticky. Qed.

Lemma sticky_decode_vehicleInfo_member v m :
  sticky (decode_vehicleInfo_member v m).
Proof.
  destruct m as [key j]. unfold decode_vehicleInfo_member.
  repeat (member_test; [auto with sticky|]).
  auto with sticky.
Qed.

Lemma sticky_decode_vehicleInfo v j : sticky (decode_vehicleInfo v j).
Proof.
  destruct j; cbn; auto with sticky.
  apply sticky_dfold, sticky_decode_vehicleInfo_member.
Qed.

Lemma sticky_decode_VehicleInfo_member m kv :
  sticky (decode_VehicleInfo_member m kv).
Proof.
  destruct kv as [key j]. unfold decode_VehicleInfo_member.
  apply sticky_dbind; [apply sticky_decode_vehicleInfo|auto with sticky].
Qed.

Lemma sticky_decode_VehicleInfo m j : sticky (decode_VehicleInfo m j).
Proof.
  destruct j; cbn; auto with sticky.
  apply sticky_dfold, sticky_decode_VehicleInfo_member.
Qed.

Lemma sticky_decode_fleetStatus_member v m :
  sticky (decode_fleetStatus_member v m).
Proof.
  destruct m as [key j]. unfold decode_fleetStatus_member.
  repeat (member_test;
          [apply sticky_dbind;
           [first [apply sticky_decode_strings | apply sticky_decode_VehicleInfo]
           |auto with sticky]|]).
  auto with sticky.
Qed.

Lemma sticky_decode_fleetStatus v j : sticky (decode_fleetStatus v j).
Proof.
  destruct j; cbn; auto with sticky.
  apply sticky_dfold, sticky_decode_fleetStatus_member.
Qed.

Lemma sticky_decode_responseWrapper_member v m :
  sticky (decode_responseWrapper_member v m).
Proof.
  destruct m as [key j]. unfold decode_responseWrapper_member.
  member_test; [|auto with sticky].
  apply sticky_dbind; [apply sticky_decode_fleetStatus|auto with sticky].
Qed.

(** ** Steps that save an error *)

Lemma raises_saved {A} (err : error) (a : A) :
  raises (dbind (saveError err) (fun _ => dret a)).
Proof. intros [e|]; cbn; eauto. Qed.

Lemma raises_dbind {A B} (m : decodeState A) (k : A -> decodeState B) :
  raises m -> (forall a, sticky (k a)) -> raises (dbind m k).
Proof.
  intros Hm Hk s. unfold dbind. destruct (Hm s) as [e E].
  destruct (m s) as [a s']. cbn in E. subst s'. rewrite Hk. eauto.
Qed.

(** A loop saves an error when the step for one of its elements does. *)
Lemma raises_dfold {A B} (f : A -> B -> decodeState A) (l : list B) (b : B) :
  (forall a b', sticky (f a b')) ->
  b ∈ l -> (forall a, raises (f a b)) -> forall a, raises (dfold f a l).
Proof.
  intros Hsticky Hin Hb. induction Hin as [b l|b b' l Hin IH]; intros a;
    cbn [dfold].
  - apply raises_dbind; [apply Hb|]. intros a'. apply sticky_dfold, Hsticky.
  - intros s. unfold dbind. destruct (f a b' s) as [a' s']. apply IH, Hb.
Qed.

Lemma raises_decode_strings v j :
  j <> JNull -> (forall elems, j <> JArray elems) -> raises (decode_strings v j).
Proof.
  intros Hnull Harray. destruct j; cbn; try apply raises_saved;
    [congruence | destruct (Harray elems eq_refl)].
Qed.

Lemma raises_decode_vehicleInfo v j :
  j <> JNull -> (forall members, j <> JObject members) ->
  raises (decode_vehicleInfo v j).
Proof.
  intros Hnull Hobject. destruct j; cbn; try apply raises_saved;
    [congruence | destruct (Hobject members eq_refl)].
Qed.

(** Under [response], a member for [unpaired_vins] that is neither an array
    nor [null] leaves a saved error. *)
Lemma raises_unpaired_vins v top key1 inner key2 j :
  (key1, JObject inner) ∈ top -> field_matches "response" key1 = true ->
  (key2, j) ∈ inner -> field_matches "unpaired_vins" key2 = true ->
  j <> JNull -> (forall elems, j <> JArray elems) ->
  raises (decode_responseWrapper v (JObject top)).
Proof.
  intros Hin1 Hkey1 Hin2 Hkey2 Hnull Harray. cbn [decode_responseWrapper].
  apply (raises_dfold _ _ _ sticky_decode_responseWrapper_member Hin1).
  intros a. unfold decode_responseWrapper_member. rewrite Hkey1.
  apply raises_dbind; [|auto with sticky]. cbn [decode_fleetStatus].
  apply (raises_dfold _ _ _ sticky_decode_fleetStatus_member Hin2).
  intros a'. unfold decode_fleetStatus_member.
  repeat member_test; try congruence; try clash.
  apply raises_dbind; [|auto with sticky].
  apply raises_decode_strings; assumption.
Qed.

(** Under [response] and [vehicle_info], a member, whatever its name, that
    is neither an object nor [null] leaves a saved error. *)
Lemma raises_vehicle_entry v top key1 inner key2 infos key3 j :
  (key1, JObject inner) ∈ top -> field_matches "response" key1 = true ->
  (key2, JObject infos) ∈ inner -> field_matches "vehicle_info" key2 = true ->
  (key3, j) ∈ infos ->
  j <> JNull -> (forall members, j <> JObject members) ->
  raises (decode_responseWrapper v (JObject top)).
Proof.
  intros Hin1 Hkey1 Hin2 Hkey2 Hin3 Hnull Hobject. cbn [decode_responseWrapper].
  apply (raises_dfold _ _ _ sticky_decode_responseWrapper_member Hin1).
  intros a. unfold decode_responseWrapper_member. rewrite Hkey1.
  apply raises_dbind; [|auto with sticky]. cbn [decode_fleetStatus].
  apply (raises_dfold _ _ _ sticky_decode_fleetStatus_member Hin2).
  intros a'. unfold decode_fleetStatus_member.
  repeat member_test; try congruence; try clash.
  apply raises_dbind; [|auto with sticky]. cbn [decode_VehicleInfo].
  apply (raises_dfold _ _ _ sticky_decode_VehicleInfo_member Hin3).
  intros m. unfold decode_VehicleInfo_member.
  apply raises_dbind; [|auto with sticky].
  apply raises_decode_vehicleInfo; assumption.
Qed.

(** ** The member that decides a field, for any struct *)

Section DecidingMember.
Context {A C : Type} (step : A -> string * json -> decodeState A)
  (get : A -> C) (name : string) (store : C -> json -> decodeState C).
Hypothesis step_keeps : forall a m, keeps_error (step a m).
Hypothesis hit : forall a key j s,
  field_matches name key = true ->
  (get (fst (step a (key, j) s)), snd (step a (key, j) s)) = store (get a) j s.
Hypothesis frame : forall a key j s,
  field_matches name key = false -> get (fst (step a (key, j) s)) = get a.

Lemma deciding_member members : forall a s a',
  dfold step a members s = (a', None) ->
  match last_member name members with
  | None => get a' = get a
  | Some j => exists c, store c j None = (get a', None)
  end.
Proof.
  induction members as [|[key j] rest IH]; intros a s a' E;
    cbn [dfold last_member] in *.
  - unfold dret in E. congruence.
  - unfold dbind at 1 in E.
    destruct (step a (key, j) s) as [a1 s1] eqn:E1.
    pose proof (IH _ _ _ E) as IH'.
    destruct (last_member name rest) as [j'|]; [exact IH'|].
    assert (s1 = None) as ->.
    { apply (keeps_dfold _ rest step_keeps a1). rewrite E. reflexivity. }
    assert (s = None) as ->.
    { apply (step_keeps a (key, j)). rewrite E1. reflexivity. }
    destruct (field_matches name key) eqn:Ek.
    + exists (get a). rewrite <- (hit _ _ _ _ Ek), E1, IH'. reflexivity.
    + rewrite IH', <- (frame a key j None Ek), E1. reflexivity.
Qed.

End DecidingMember.

(** A slice ends with as many elements as the array stored into it. *)
Lemma decode_elems_length elems : forall v s,
  length (fst (decode_elems v elems s)) = length elems.
Proof.
  induction elems as [|j elems IH]; intros v s; cbn [decode_elems]; [reflexivity|].
  unfold dbind at 1. destruct (decode_string (hd "" v) j s) as [x s1].
  unfold dbind at 1. specialize (IH (tl v) s1).
  destruct (decode_elems (tl v) elems s1) as [xs s2]. cbn in *. congruence.
Qed.

Lemma stored_strings c j x :
  decode_strings c j None = (x, None) ->
  length x = match j with JArray elems => length elems | _ => 0 end.
Proof.
  destruct j; cbn [decode_strings]; try (cbn; intros [= <-]; reflexivity).
  intros E. rewrite <- (decode_elems_length elems c None), E. reflexivity.
Qed.

(** [KeyPairedVINs] after an object has been stored without error into a
    [fleetStatus]. *)
Lemma decode_fleetStatus_KeyPairedVINs members v s v' :
  dfold decode_fleetStatus_member v members s = (v', None) ->
  match last_member "key_paired_vins" members with
  | None => KeyPairedVINs v' = KeyPairedVINs v
  | Some j =>
      length (KeyPairedVINs v')
      = match j with JArray elems => length elems | _ => 0 end
  end.
Proof.
  intros E.
  pose proof (deciding_member decode_fleetStatus_member KeyPairedVINs
    "key_paired_vins" decode_strings keeps_decode_fleetStatus_member) as D.
  specialize (D ltac:(intros; unfold decode_fleetStatus_member;
                      repeat member_test; try congruence; try clash;
                      unfold dbind, dret; destruct (decode_strings _ _ _);
                      reflexivity)
                ltac:(intros; unfold decode_fleetStatus_member;
                      repeat member_test; try congruence; try clash;
                      unfold dbind, dret;
                      repeat match goal with
                      | |- context [let '(_, _) := ?m in _] => destruct m
                      end; reflexivity)
                members _ _ _ E).
  destruct (last_member _ _) as [j|]; [|exact D].
  destruct D as [c D]. exact (stored_strings _ _ _ D).
Qed.

(** [Response] after an object has been stored without error into the
    wrapper. *)
Lemma decode_responseWrapper_Response top v s v' :
  dfold decode_responseWrapper_member v top s = (v', None) ->
  match last_member "response" top with
  | None => Response v' = Response v
  | Some j => exists c, decode_fleetStatus c j None = (Response v', None)
  end.
Proof.
  intros E.
  exact (deciding_member decode_responseWrapper_member Response
    "response" decode_fleetStatus keeps_decode_responseWrapper_member
    ltac:(intros; unfold decode_responseWrapper_member;
          repeat member_test; try congruence;
          unfold dbind, dret; destruct (decode_fleetStatus _ _ _); reflexivity)
    ltac:(intros; unfold decode_responseWrapper_member;
          repeat member_test; try congruence; reflexivity)
    top _ _ _ E).
Qed.

End Decoding.

(** * Properties *)

Section Properties.
Context `{Library}.

#[local] Arguments json_Unmarshal : simpl never.
#[local] Arguments http_NewRequestWithContext : simpl never.
#[local] Arguments Header_Set : simpl never.
#[local] Arguments getFleetStatusRequest_json : simpl never.

(** Unfolds the statements of a function body. *)
Ltac unfold_body :=
  unfold GetFleetStatus, func, bind, if_err, try, if_return, c_baseURL, c_hc,
    Do, Close, next, return_, io_ReadAll in *.

(** The body of [GetFleetStatus], test by test. *)
Lemma GetFleetStatus_run ctx token vin w :
  GetFleetStatus ctx token vin w =
  match json_Marshal (getFleetStatusRequest_json {| VINs := [vin] |}) with
  | (_, Some err) =>
      ((None, Some (fmt_Errorf_w "failed to serialize request body: " err)), w)
  | (reqBytes, None) =>
      match
        http_NewRequestWithContext ctx MethodPost
          (URL_String (URL_JoinPath (baseURL (client w)) ["api/1/vehicles/fleet_status"]))
          reqBytes
      with
      | Err err =>
          ((None, Some (fmt_Errorf_w "failed to construct request: " err)), w)
      | Ok req0 =>
          let req :=
            Header_Set
              (Header_Set req0 "Authorization" ("Bearer " +:+ token))
              "Content-Type" "application/json" in
          let sent' := sent w ++ [(hc (client w), req)] in
          match Client_Do (hc (client w)) req with
          | Err err =>
              ((None, Some (fmt_Errorf_w "request failed: " err)),
               {| client := client w; sent := sent'; closed := closed w |})
          | Ok resp =>
              let w' :=
                {| client := client w; sent := sent';
                   closed := closed w ++ [Body resp] |} in
              match ReadCloser_err (Body resp) with
              | Some err =>
                  ((None,
                    Some (fmt_Errorf_w "failed to read response body: " err)), w')
              | None =>
                  if negb (StatusCode resp =? StatusOK)%Z then
                    ((None, Some (fmt_Errorf_d "status code " (StatusCode resp))), w')
                  else
                    match
                      json_Unmarshal (ReadCloser_data (Body resp)) responseWrapper_zero
                    with
                    | (_, Some err) =>
                        ((None,
                          Some (fmt_Errorf_w "failed to parse response body: " err)),
                         w')
                    | (respBody, None) =>
                        let fs :=
                          default vehicleInfo_zero
                            (VehicleInfo (Response respBody) !! vin) in
                        ((Some {|
                            KeyPaired :=
                              (length (KeyPairedVINs (Response respBody)) =? 1)%nat;
                            VehicleCommandProtocolRequired :=
                              vehicleInfo_VehicleCommandProtocolRequired fs;
                            SafetyScreenStreamingToggleEnabled :=
                              vehicleInfo_SafetyScreenStreamingToggleEnabled fs;
                            FirmwareVersion := vehicleInfo_FirmwareVersion fs;
                            FleetTelemetryVersion :=
                              vehicleInfo_FleetTelemetryVersion fs;
                            TotalNumberOfKeys := vehicleInfo_TotalNumberOfKeys fs;
                            DiscountedDeviceData :=
                              vehicleInfo_DiscountedDeviceData fs;
                          |}, None), w')
                    end
              end
          end
      end
  end.
Proof.
  unfold_body.
  destruct (json_Marshal _) as [reqBytes [err|]]; [reflexivity|].
  destruct (http_NewRequestWithContext _ _ _ _) as [req0|err]; [|reflexivity].
  cbn zeta.
  destruct (Client_Do _ _) as [resp|err]; [|reflexivity].
  destruct (ReadCloser_err (Body resp)) as [err|]; [reflexivity|].
  destruct (negb _); [reflexivity|].
  destruct (json_Unmarshal _ _) as [respBody [err|]]; reflexivity.
Qed.

(** Splits on every test of the body in the goal, in the order of the
    body. *)
Ltac run_case :=
  match goal with
  | |- context [match json_Marshal ?j with _ => _ end] =>
      destruct (json_Marshal j) as [? [?|]] eqn:?
  | |- context [match http_NewRequestWithContext ?a ?b ?c ?d with _ => _ end] =>
      destruct (http_NewRequestWithContext a b c d) eqn:?
  | |- context [match Client_Do ?a ?b with _ => _ end] =>
      destruct (Client_Do a b) eqn:?
  | |- context [match ReadCloser_err ?a with _ => _ end] =>
      destruct (ReadCloser_err a) eqn:?
  | |- context [if negb ?a then _ else _] =>
      destruct (negb a) eqn:?
  | |- context [match json_Unmarshal ?a ?b with _ => _ end] =>
      destruct (json_Unmarshal a b) as [? [?|]] eqn:?
  end.

Ltac run_cases :=
  rewrite ?GetFleetStatus_run;
  repeat (run_case; cbn zeta; cbn [fst snd sent closed client]).

Lemma snoc_eq_inv {A} (l : list A) (x y : A) : l ++ [x] = l ++ [y] -> x = y.
Proof. intros E. apply app_inv_head in E. congruence. Qed.

Lemma snoc_neq_self {A} (l : list A) (x : A) : l <> l ++ [x].
Proof.
  intros E. apply (f_equal length) in E. rewrite length_app in E.
  cbn in E. lia.
Qed.

Lemma append_inv_head (p a b : string) : p +:+ a = p +:+ b -> a = b.
Proof. induction p as [|c p IH]; cbn; intros E; [exact E | injection E; auto]. Qed.

(** The decimal text of [%d] determines the number. *)
Lemma format_d_inj (n m : Z) : format_d n = format_d m -> n = m.
Proof.
  unfold format_d. intros E.
  assert (R : forall z, NilZero.int_of_string (NilZero.string_of_int (Z.to_int z))
                        = Some (Z.to_int z)).
  { intros z. apply NilZero.isi; destruct z; cbn; try discriminate;
      intros [= E']; exact (Unsigned.to_uint_nonnil _ E'). }
  pose proof (R n) as Rn. rewrite E, R in Rn. injection Rn as Rn.
  rewrite <- (of_to n), <- (of_to m). congruence.
Qed.

Lemma fmt_Errorf_d_inj (p : string) (n m : Z) :
  fmt_Errorf_d p n = fmt_Errorf_d p m -> n = m.
Proof.
  unfold fmt_Errorf_d. intros [= E]. apply append_inv_head in E.
  exact (format_d_inj _ _ E).
Qed.

(** C5: every call returns either a result with a nil error or a nil
    result with an error, never both and never neither; and a result is only
    returned after the response was read whole, had status 200 and was
    parsed without error. *)
Theorem GetFleetStatus_result_xor_error ctx token vin w :
  let run := GetFleetStatus ctx token vin w in
  ((is_Some (fst (fst run)) /\ snd (fst run) = None) \/
   (fst (fst run) = None /\ is_Some (snd (fst run)))) /\
  (forall fs, fst (fst run) = Some fs ->
     exists h req resp respBody,
       sent (snd run) = sent w ++ [(h, req)] /\
       Client_Do h req = Ok resp /\
       ReadCloser_err (Body resp) = None /\
       StatusCode resp = StatusOK /\
       json_Unmarshal (ReadCloser_data (Body resp)) responseWrapper_zero
         = (respBody, None)).
Proof.
  cbn zeta. split.
  - run_cases; eauto.
  - intros fs. run_cases; try discriminate. intros _.
    eexists _, _, _, _. repeat split; eauto.
    match goal with E : negb _ = false |- _ =>
      apply negb_false_iff, Z.eqb_eq in E; exact E end.
Qed.

(** C8: a call leaves the [Client] its receiver points to as it was, the
    transport and the base URL, whatever path it takes. *)
Theorem GetFleetStatus_client_unchanged ctx token vin w :
  let w' := snd (GetFleetStatus ctx token vin w) in
  client w' = client w /\
  hc (client w') = hc (client w) /\
  baseURL (client w') = baseURL (client w).
Proof.
  cbn zeta.
  assert (E : client (snd (GetFleetStatus ctx token vin w)) = client w)
    by (run_cases; reflexivity).
  rewrite E. auto.
Qed.

(** Finishes a case of the body in which a hypothesis names the request
    handed to the transport and its answer. *)
Ltac same_exchange :=
  intros;
  repeat match goal with
  | E : ?l = ?l ++ [_] |- _ => destruct (snoc_neq_self _ _ E)
  | E : ?l ++ [_] = ?l ++ [_] |- _ => apply snoc_eq_inv in E
  end;
  repeat (simplify_eq;
          match goal with
          | E1 : ?x = _, E2 : ?x = _ |- _ => rewrite E1 in E2
          end);
  simplify_eq;
  repeat match goal with
  | E : negb (_ =? _)%Z = true |- _ => apply negb_true_iff, Z.eqb_neq in E
  | E : negb (_ =? _)%Z = false |- _ => apply negb_false_iff, Z.eqb_eq in E
  end;
  try contradiction.

(** C9: the body is read, and a failure to read it reported, before the
    status code is looked at.  When reading the body of the response fails
    the call returns the read error, whatever the status code; and a
    status-code error is only returned for a response whose body was read
    without error. *)
Theorem GetFleetStatus_read_before_status ctx token vin w h req resp :
  let run := GetFleetStatus ctx token vin w in
  sent (snd run) = sent w ++ [(h, req)] ->
  Client_Do h req = Ok resp ->
  (forall err, ReadCloser_err (Body resp) = Some err ->
     fst run = (None, Some (fmt_Errorf_w "failed to read response body: " err))) /\
  (forall n, fst run = (None, Some (fmt_Errorf_d "status code " n)) ->
     ReadCloser_err (Body resp) = None /\ n = StatusCode resp /\ n <> StatusOK).
Proof.
  cbn zeta. run_cases; same_exchange; split; intros; simplify_eq; try done.
  match goal with E : format_d _ = format_d _ |- _ =>
    apply format_d_inj in E; subst end.
  repeat split; assumption.
Qed.

(** C3, as the code has it: for a response whose body is read without error
    and whose status code is not 200, the call returns a nil result and the
    error [status code N], N the decimal status code of the response, from
    which the code can be read back. *)
Theorem GetFleetStatus_status_error ctx token vin w h req resp :
  let run := GetFleetStatus ctx token vin w in
  sent (snd run) = sent w ++ [(h, req)] ->
  Client_Do h req = Ok resp ->
  ReadCloser_err (Body resp) = None ->
  StatusCode resp <> StatusOK ->
  fst run = (None, Some (errorString ("status code " +:+ format_d (StatusCode resp)))) /\
  (forall n, errorString ("status code " +:+ format_d n)
             = errorString ("status code " +:+ format_d (StatusCode resp)) ->
             n = StatusCode resp).
Proof.
  cbn zeta. intros Hsent Hdo Hread Hcode. split.
  - revert Hsent Hdo Hread Hcode. run_cases; same_exchange; done.
  - intros n E. exact (fmt_Errorf_d_inj "status code " _ _ E).
Qed.

(** C1: in a successful call [KeyPaired] is true exactly when the
    [key_paired_vins] of the parsed response has length 1; which VINs it
    holds plays no part. *)
Theorem GetFleetStatus_KeyPaired ctx token vin w fs :
  let run := GetFleetStatus ctx token vin w in
  fst run = (Some fs, None) ->
  exists h req resp respBody,
    sent (snd run) = sent w ++ [(h, req)] /\
    Client_Do h req = Ok resp /\
    json_Unmarshal (ReadCloser_data (Body resp)) responseWrapper_zero
      = (respBody, None) /\
    (KeyPaired fs = true <-> length (KeyPairedVINs (Response respBody)) = 1).
Proof.
  cbn zeta. run_cases; try discriminate. intros [= <-].
  eexists _, _, _, _. repeat split; eauto; cbn.
  - apply Nat.eqb_eq.
  - apply Nat.eqb_eq.
Qed.

(** C2: when the response has status 200 and is parsed into a
    [vehicle_info] without the queried VIN, the call returns no error and a
    result whose per-vehicle fields are the zero values; [KeyPaired] is
    still taken from [key_paired_vins]. *)
Theorem GetFleetStatus_missing_vin ctx token vin w h req resp respBody :
  let run := GetFleetStatus ctx token vin w in
  sent (snd run) = sent w ++ [(h, req)] ->
  Client_Do h req = Ok resp ->
  StatusCode resp = StatusOK ->
  ReadCloser_err (Body resp) = None ->
  json_Unmarshal (ReadCloser_data (Body resp)) responseWrapper_zero
    = (respBody, None) ->
  VehicleInfo (Response respBody) !! vin = None ->
  fst run =
    (Some {| KeyPaired := (length (KeyPairedVINs (Response respBody)) =? 1)%nat;
             VehicleCommandProtocolRequired := false;
             SafetyScreenStreamingToggleEnabled := None;
             FirmwareVersion := "";
             FleetTelemetryVersion := None;
             TotalNumberOfKeys := None;
             DiscountedDeviceData := false |},
     None).
Proof.
  cbn zeta. run_cases; same_exchange.
  match goal with E : VehicleInfo _ !! _ = None |- _ => rewrite E end.
  reflexivity.
Qed.

(** C10, as the code has it: of a response that is read and parsed without
    error, the result depends only on the length of [key_paired_vins] and
    the [vehicle_info] entry of the queried VIN.  Two calls for the same VIN
    whose 200 responses are parsed without error into values that agree on
    these two return equal results, whatever [unpaired_vins] and the
    entries of other VINs are. *)
Theorem GetFleetStatus_depends_only_on ctx1 ctx2 token1 token2 vin w1 w2
    h1 req1 resp1 respBody1 h2 req2 resp2 respBody2 :
  let run1 := GetFleetStatus ctx1 token1 vin w1 in
  let run2 := GetFleetStatus ctx2 token2 vin w2 in
  sent (snd run1) = sent w1 ++ [(h1, req1)] ->
  Client_Do h1 req1 = Ok resp1 ->
  StatusCode resp1 = StatusOK ->
  ReadCloser_err (Body resp1) = None ->
  json_Unmarshal (ReadCloser_data (Body resp1)) responseWrapper_zero
    = (respBody1, None) ->
  sent (snd run2) = sent w2 ++ [(h2, req2)] ->
  Client_Do h2 req2 = Ok resp2 ->
  StatusCode resp2 = StatusOK ->
  ReadCloser_err (Body resp2) = None ->
  json_Unmarshal (ReadCloser_data (Body resp2)) responseWrapper_zero
    = (respBody2, None) ->
  length (KeyPairedVINs (Response respBody1))
    = length (KeyPairedVINs (Response respBody2)) ->
  VehicleInfo (Response respBody1) !! vin = VehicleInfo (Response respBody2) !! vin ->
  fst run1 = fst run2.
Proof.
  cbn zeta. intros S1 D1 C1 R1 U1 S2 D2 C2 R2 U2 Hlen Hinfo.
  assert (run_ok : forall ctx token w h req resp respBody,
    sent (snd (GetFleetStatus ctx token vin w)) = sent w ++ [(h, req)] ->
    Client_Do h req = Ok resp ->
    StatusCode resp = StatusOK ->
    ReadCloser_err (Body resp) = None ->
    json_Unmarshal (ReadCloser_data (Body resp)) responseWrapper_zero
      = (respBody, None) ->
    exists fs, fst (GetFleetStatus ctx token vin w) = (Some fs, None) /\
      KeyPaired fs = (length (KeyPairedVINs (Response respBody)) =? 1)%nat /\
      forall info, info = default vehicleInfo_zero (VehicleInfo (Response respBody) !! vin) ->
        fs = {| KeyPaired := KeyPaired fs;
                VehicleCommandProtocolRequired := vehicleInfo_VehicleCommandProtocolRequired info;
                SafetyScreenStreamingToggleEnabled := vehicleInfo_SafetyScreenStreamingToggleEnabled info;
                FirmwareVersion := vehicleInfo_FirmwareVersion info;
                FleetTelemetryVersion := vehicleInfo_FleetTelemetryVersion info;
                TotalNumberOfKeys := vehicleInfo_TotalNumberOfKeys info;
                DiscountedDeviceData := vehicleInfo_DiscountedDeviceData info |}).
  { clear. intros ctx token w h req resp respBody.
    run_cases; same_exchange.
    eexists. split; [reflexivity|]. split; [reflexivity|].
    intros info ->. reflexivity. }
  destruct (run_ok _ _ _ _ _ _ _ S1 D1 C1 R1 U1) as (fs1 & -> & K1 & F1).
  destruct (run_ok _ _ _ _ _ _ _ S2 D2 C2 R2 U2) as (fs2 & -> & K2 & F2).
  cbn. rewrite (F1 _ eq_refl), (F2 _ eq_refl), K1, K2, Hlen, Hinfo.
  reflexivity.
Qed.

(** A [vehicle_info] entry of a response parsed without error was stored
    from a value written in the document for that VIN. *)
Lemma json_Unmarshal_origin data respBody vin info :
  json_Unmarshal data responseWrapper_zero = (respBody, None) ->
  VehicleInfo (Response respBody) !! vin = Some info ->
  exists doc j,
    json_scan data = Some doc /\ entry_in_document doc vin j /\
    decode_vehicleInfo vehicleInfo_zero j None = (info, None).
Proof.
  unfold json_Unmarshal. destruct (json_scan data) as [doc|]; [|discriminate].
  intros E Hinfo.
  destruct (decode_responseWrapper_origin _ _ _ _ E Hinfo) as (j & Hj & Hdec).
  exists doc, j. auto.
Qed.

(** C4: in a successful call for a VIN that the parsed response has under
    [vehicle_info], every per-vehicle field of the result is the field of
    that entry, unchanged.  The entry was stored from a value the document
    has for the VIN: for an object, each optional field is present exactly
    when the member that decides it is not [null], and then holds that
    member's value, and each bool or string field holds the value of the
    member that decides it; for [null], every field is absent or zero. *)
Theorem GetFleetStatus_fields ctx token vin w fs :
  let run := GetFleetStatus ctx token vin w in
  fst run = (Some fs, None) ->
  exists h req resp respBody,
    sent (snd run) = sent w ++ [(h, req)] /\
    Client_Do h req = Ok resp /\
    json_Unmarshal (ReadCloser_data (Body resp)) responseWrapper_zero
      = (respBody, None) /\
    forall info, VehicleInfo (Response respBody) !! vin = Some info ->
      (VehicleCommandProtocolRequired fs
         = vehicleInfo_VehicleCommandProtocolRequired info /\
       SafetyScreenStreamingToggleEnabled fs
         = vehicleInfo_SafetyScreenStreamingToggleEnabled info /\
       FirmwareVersion fs = vehicleInfo_FirmwareVersion info /\
       FleetTelemetryVersion fs = vehicleInfo_FleetTelemetryVersion info /\
       TotalNumberOfKeys fs = vehicleInfo_TotalNumberOfKeys info /\
       DiscountedDeviceData fs = vehicleInfo_DiscountedDeviceData info) /\
      exists doc j,
        json_scan (ReadCloser_data (Body resp)) = Some doc /\
        entry_in_document doc vin j /\
        match j with
        | JObject members =>
            SafetyScreenStreamingToggleEnabled fs =
              match last_member "safety_screen_streaming_toggle_enabled" members with
              | Some (JBool b) => Some b
              | _ => None
              end /\
            FleetTelemetryVersion fs =
              match last_member "fleet_telemetry_version" members with
              | Some (JString s) => Some s
              | _ => None
              end /\
            TotalNumberOfKeys fs =
              match last_member "total_number_of_keys" members with
              | Some (JNumber lit) => strconv_ParseInt lit
              | _ => None
              end /\
            match last_member "vehicle_command_protocol_required" members with
            | Some (JBool b) => VehicleCommandProtocolRequired fs = b
            | Some _ => True
            | None => VehicleCommandProtocolRequired fs = false
            end /\
            match last_member "firmware_version" members with
            | Some (JString s) => FirmwareVersion fs = s
            | Some _ => True
            | None => FirmwareVersion fs = ""
            end /\
            match last_member "discounted_device_data" members with
            | Some (JBool b) => DiscountedDeviceData fs = b
            | Some _ => True
            | None => DiscountedDeviceData fs = false
            end
        | _ => j = JNull /\ info = vehicleInfo_zero
        end.
Proof.
  cbn zeta. run_cases; try discriminate. intros [= <-].
  eexists _, _, _, _. split; [reflexivity|]. split; [eassumption|].
  split; [eassumption|]. intros info Hinfo. rewrite Hinfo. cbn.
  split; [auto 10|].
  match goal with E : json_Unmarshal _ _ = _ |- _ =>
    destruct (json_Unmarshal_origin _ _ _ _ E Hinfo) as (doc & j & Hdoc & Hj & Hdec)
  end.
  exists doc, j. split; [exact Hdoc|]. split; [exact Hj|].
  destruct j; try (cbn in Hdec; discriminate).
  - cbn in Hdec. injection Hdec as <-. auto.
  - exact (decode_vehicleInfo_object _ _ Hdec).
Qed.

(** C7, as the code has it: when the request body serialises and the
    request can be built (a non-nil context, a URL text that parses), the
    call hands exactly one request to the transport of the client: a POST to
    the URL of [baseURL] joined with [api/1/vehicles/fleet_status], whose
    body is the serialised object with the one member [vins], an array of
    the VIN alone, and whose header has [Authorization: Bearer token] and
    [Content-Type: application/json].  When the request cannot be built the
    call hands no request to any transport. *)
Theorem GetFleetStatus_one_request ctx token vin w :
  let run := GetFleetStatus ctx token vin w in
  let target :=
    URL_String (URL_JoinPath (baseURL (client w)) ["api/1/vehicles/fleet_status"]) in
  let body := json_Marshal (JObject [("vins", JArray [JString vin])]) in
  (forall ctx0 u,
     snd body = None ->
     ctx = Some ctx0 ->
     url_Parse target = Ok u ->
     sent (snd run) =
       sent w ++
       [(hc (client w),
         {| Request_ctx := ctx0;
            Request_Method := "POST";
            Request_URL := u;
            Request_Header :=
              <["Content-Type" := ["application/json"]]>
                (<["Authorization" := ["Bearer " +:+ token]]> ∅);
            Request_Body := fst body |})]) /\
  (is_Some (snd body) \/ ctx = None \/ (exists err, url_Parse target = Err err) ->
   sent (snd run) = sent w).
Proof.
  cbn zeta. split.
  - intros ctx0 u Hbody -> Hu.
    rewrite GetFleetStatus_run.
    change (getFleetStatusRequest_json {| VINs := [vin] |})
      with (JObject [("vins", JArray [JString vin])]).
    destruct (json_Marshal _) as [reqBytes [err|]]; [discriminate|].
    unfold http_NewRequestWithContext. rewrite Hu. cbn zeta.
    destruct (Client_Do _ _) as [resp|err]; [|reflexivity].
    destruct (ReadCloser_err _); [reflexivity|].
    destruct (negb _); [reflexivity|].
    destruct (json_Unmarshal _ _) as [respBody [err|]]; reflexivity.
  - intros Hfail. rewrite GetFleetStatus_run.
    change (getFleetStatusRequest_json {| VINs := [vin] |})
      with (JObject [("vins", JArray [JString vin])]).
    destruct (json_Marshal _) as [reqBytes [err|]]; [reflexivity|].
    unfold http_NewRequestWithContext.
    destruct Hfail as [[e He]|[->|[err Herr]]]; [discriminate|reflexivity|].
    destruct ctx; [|reflexivity]. rewrite Herr. reflexivity.
Qed.

(** ** Further properties of [GetFleetStatus] *)

(** The request a call hands over when it can build one. *)
Lemma GetFleetStatus_sent ctx0 token vin w u :
  snd (json_Marshal (JObject [("vins", JArray [JString vin])])) = None ->
  url_Parse
    (URL_String (URL_JoinPath (baseURL (client w)) ["api/1/vehicles/fleet_status"]))
  = Ok u ->
  sent (snd (GetFleetStatus (Some ctx0) token vin w)) =
    sent w ++
    [(hc (client w),
      {| Request_ctx := ctx0;
         Request_Method := "POST";
         Request_URL := u;
         Request_Header :=
           <["Content-Type" := ["application/json"]]>
             (<["Authorization" := ["Bearer " +:+ token]]> ∅);
         Request_Body :=
           fst (json_Marshal (JObject [("vins", JArray [JString vin])])) |})].
Proof.
  intros Hbody Hu. rewrite GetFleetStatus_run.
  change (getFleetStatusRequest_json {| VINs := [vin] |})
    with (JObject [("vins", JArray [JString vin])]).
  destruct (json_Marshal _) as [reqBytes [err|]]; [discriminate|].
  unfold http_NewRequestWithContext. rewrite Hu. cbn zeta.
  destruct (Client_Do _ _) as [resp|err]; [|reflexivity].
  destruct (ReadCloser_err _); [reflexivity|].
  destruct (negb _); [reflexivity|].
  destruct (json_Unmarshal _ _) as [respBody [err|]]; reflexivity.
Qed.

(** A call that hands over a request had a context and a URL text that
    parsed. *)
Lemma GetFleetStatus_sent_inv ctx token vin w h req :
  sent (snd (GetFleetStatus ctx token vin w)) = sent w ++ [(h, req)] ->
  exists ctx0 u,
    ctx = Some ctx0 /\
    snd (json_Marshal (JObject [("vins", JArray [JString vin])])) = None /\
    url_Parse
      (URL_String (URL_JoinPath (baseURL (client w)) ["api/1/vehicles/fleet_status"]))
    = Ok u.
Proof.
  rewrite GetFleetStatus_run.
  change (getFleetStatusRequest_json {| VINs := [vin] |})
    with (JObject [("vins", JArray [JString vin])]).
  destruct (json_Marshal _) as [reqBytes [err|]];
    [intros E; destruct (snoc_neq_self _ _ E)|].
  unfold http_NewRequestWithContext. destruct ctx as [ctx0|];
    [|intros E; destruct (snoc_neq_self _ _ E)].
  destruct (url_Parse _) as [u|err];
    [|intros E; destruct (snoc_neq_self _ _ E)].
  intros _. exists ctx0, u. auto.
Qed.

(** X1: the body of a response is closed exactly once on every path that
    got a response, and nothing is closed on the paths that got none. *)
Theorem GetFleetStatus_closes_body ctx token vin w :
  let run := GetFleetStatus ctx token vin w in
  (forall h req resp,
     sent (snd run) = sent w ++ [(h, req)] -> Client_Do h req = Ok resp ->
     closed (snd run) = closed w ++ [Body resp]) /\
  (forall h req err,
     sent (snd run) = sent w ++ [(h, req)] -> Client_Do h req = Err err ->
     closed (snd run) = closed w) /\
  (sent (snd run) = sent w -> closed (snd run) = closed w).
Proof.
  cbn zeta. repeat split; run_cases; same_exchange; try done;
    match goal with E : _ ++ [_] = _ |- _ =>
      symmetry in E; destruct (snoc_neq_self _ _ E) end.
Qed.

(** X2: a returned error keeps its cause.  It is either the status-code
    error, which wraps nothing and is only built for a status other than 200,
    or an error that wraps the very error one of the five steps gave:
    serialising, building the request, the transport, reading the body or
    parsing it. *)
Theorem GetFleetStatus_error_cause ctx token vin w e :
  let run := GetFleetStatus ctx token vin w in
  let body := json_Marshal (JObject [("vins", JArray [JString vin])]) in
  let target :=
    URL_String (URL_JoinPath (baseURL (client w)) ["api/1/vehicles/fleet_status"]) in
  snd (fst run) = Some e ->
  (errors_Unwrap e = None /\
   exists h req resp,
     sent (snd run) = sent w ++ [(h, req)] /\ Client_Do h req = Ok resp /\
     StatusCode resp <> StatusOK /\
     e = fmt_Errorf_d "status code " (StatusCode resp)) \/
  (exists cause,
     errors_Unwrap e = Some cause /\
     (snd body = Some cause \/
      http_NewRequestWithContext ctx MethodPost target (fst body) = Err cause \/
      (exists h req,
         sent (snd run) = sent w ++ [(h, req)] /\ Client_Do h req = Err cause) \/
      (exists h req resp,
         sent (snd run) = sent w ++ [(h, req)] /\ Client_Do h req = Ok resp /\
         (ReadCloser_err (Body resp) = Some cause \/
          snd (json_Unmarshal (ReadCloser_data (Body resp)) responseWrapper_zero)
          = Some cause)))).
Proof.
  cbn zeta. rewrite GetFleetStatus_run.
  change (getFleetStatusRequest_json {| VINs := [vin] |})
    with (JObject [("vins", JArray [JString vin])]).
  destruct (json_Marshal _) as [reqBytes [err|]] eqn:Ebody; cbn [fst snd].
  { intros [= <-]. right. eauto. }
  destruct (http_NewRequestWithContext _ _ _ _) as [req0|err] eqn:Ereq;
    cbn [fst snd].
  2:{ intros [= <-]. right. eauto. }
  cbn zeta. destruct (Client_Do _ _) as [resp|err] eqn:Edo; cbn [fst snd sent].
  2:{ intros [= <-]. right. eexists. split; [reflexivity|]. eauto 8. }
  destruct (ReadCloser_err _) as [err|] eqn:Eread; cbn [fst snd sent].
  { intros [= <-]. right. eexists. split; [reflexivity|]. eauto 10. }
  destruct (negb _) eqn:Ecode; cbn [fst snd sent].
  { intros [= <-]. left. split; [reflexivity|].
    apply negb_true_iff, Z.eqb_neq in Ecode. eauto 8. }
  destruct (json_Unmarshal _ _) as [respBody [err|]] eqn:Eparse;
    cbn [fst snd sent]; [|discriminate].
  intros [= <-]. right. eexists. split; [reflexivity|].
  do 3 right. eexists _, _, _. split; [reflexivity|]. split; [exact Edo|].
  right. rewrite Eparse. reflexivity.
Qed.

(** The call on a 200 response whose body was read and whose parse left an
    error. *)
Lemma GetFleetStatus_parse_error ctx token vin w h req resp :
  sent (snd (GetFleetStatus ctx token vin w)) = sent w ++ [(h, req)] ->
  Client_Do h req = Ok resp ->
  StatusCode resp = StatusOK ->
  ReadCloser_err (Body resp) = None ->
  is_Some (snd (json_Unmarshal (ReadCloser_data (Body resp)) responseWrapper_zero)) ->
  exists cause,
    fst (GetFleetStatus ctx token vin w)
    = (None, Some (fmt_Errorf_w "failed to parse response body: " cause)).
Proof.
  run_cases; same_exchange; eauto.
  match goal with
  | E : is_Some _, P : json_Unmarshal _ _ = _ |- _ =>
      rewrite P in E; destruct E as [? E]; discriminate
  end.
Qed.

(** X3: a type error in a field the result never reads fails the call.  When
    the document of a 200 response has, under [response], a member for
    [unpaired_vins] that is neither an array nor [null], the call returns the
    parse error and no result. *)
Theorem GetFleetStatus_unread_field_type_error ctx token vin w h req resp
    top key1 inner key2 j :
  let run := GetFleetStatus ctx token vin w in
  sent (snd run) = sent w ++ [(h, req)] ->
  Client_Do h req = Ok resp ->
  StatusCode resp = StatusOK ->
  ReadCloser_err (Body resp) = None ->
  json_scan (ReadCloser_data (Body resp)) = Some (JObject top) ->
  (key1, JObject inner) ∈ top -> field_matches "response" key1 = true ->
  (key2, j) ∈ inner -> field_matches "unpaired_vins" key2 = true ->
  j <> JNull -> (forall elems, j <> JArray elems) ->
  exists cause,
    fst run = (None, Some (fmt_Errorf_w "failed to parse response body: " cause)).
Proof.
  cbn zeta. intros Hsent Hdo Hcode Hread Hscan Hin1 Hkey1 Hin2 Hkey2 Hnull Harray.
  apply (GetFleetStatus_parse_error _ _ _ _ _ _ _ Hsent Hdo Hcode Hread).
  unfold json_Unmarshal. rewrite Hscan.
  exact (raises_unpaired_vins _ _ _ _ _ _ Hin1 Hkey1 Hin2 Hkey2 Hnull Harray None).
Qed.

(** X4: a malformed description of any vehicle fails the call for every
    VIN.  When the document of a 200 response has, under [response] and
    [vehicle_info], a member of whatever name that is neither an object nor
    [null], the call returns the parse error and no result. *)
Theorem GetFleetStatus_other_entry_type_error ctx token vin w h req resp
    top key1 inner key2 infos key3 j :
  let run := GetFleetStatus ctx token vin w in
  sent (snd run) = sent w ++ [(h, req)] ->
  Client_Do h req = Ok resp ->
  StatusCode resp = StatusOK ->
  ReadCloser_err (Body resp) = None ->
  json_scan (ReadCloser_data (Body resp)) = Some (JObject top) ->
  (key1, JObject inner) ∈ top -> field_matches "response" key1 = true ->
  (key2, JObject infos) ∈ inner -> field_matches "vehicle_info" key2 = true ->
  (key3, j) ∈ infos ->
  j <> JNull -> (forall members, j <> JObject members) ->
  exists cause,
    fst run = (None, Some (fmt_Errorf_w "failed to parse response body: " cause)).
Proof.
  cbn zeta.
  intros Hsent Hdo Hcode Hread Hscan Hin1 Hkey1 Hin2 Hkey2 Hin3 Hnull Hobject.
  apply (GetFleetStatus_parse_error _ _ _ _ _ _ _ Hsent Hdo Hcode Hread).
  unfold json_Unmarshal. rewrite Hscan.
  exact (raises_vehicle_entry _ _ _ _ _ _ _ _ Hin1 Hkey1 Hin2 Hkey2 Hin3
           Hnull Hobject None).
Qed.

(** Members that do not select [response] leave the wrapper as it is. *)
Lemma decode_responseWrapper_no_member top :
  last_member "response" top = None ->
  forall v s, dfold decode_responseWrapper_member v top s = (v, s).
Proof.
  induction top as [|[key j] rest IH]; cbn [last_member dfold]; [reflexivity|].
  destruct (last_member "response" rest); [discriminate|].
  destruct (field_matches "response" key) eqn:Ekey; [discriminate|].
  intros _ v s. unfold dbind at 1, decode_responseWrapper_member.
  rewrite Ekey. cbn. apply IH. reflexivity.
Qed.

(** X5: a 200 response without the envelope is not an error.  When the
    document is [null], or an object none of whose members is named
    [response] (in any letter case), the call returns a result whose fields
    are all zero or absent, [KeyPaired] false, and no error. *)
Theorem GetFleetStatus_no_envelope ctx token vin w h req resp doc :
  let run := GetFleetStatus ctx token vin w in
  sent (snd run) = sent w ++ [(h, req)] ->
  Client_Do h req = Ok resp ->
  StatusCode resp = StatusOK ->
  ReadCloser_err (Body resp) = None ->
  json_scan (ReadCloser_data (Body resp)) = Some doc ->
  doc = JNull \/
    (exists top, doc = JObject top /\ last_member "response" top = None) ->
  fst run =
    (Some {| KeyPaired := false;
             VehicleCommandProtocolRequired := false;
             SafetyScreenStreamingToggleEnabled := None;
             FirmwareVersion := "";
             FleetTelemetryVersion := None;
             TotalNumberOfKeys := None;
             DiscountedDeviceData := false |},
     None).
Proof.
  cbn zeta. intros Hsent Hdo Hcode Hread Hscan Hdoc.
  assert (Hparse : json_Unmarshal (ReadCloser_data (Body resp)) responseWrapper_zero
                   = (responseWrapper_zero, None)).
  { unfold json_Unmarshal. rewrite Hscan.
    destruct Hdoc as [->|(top & -> & Hnone)]; [reflexivity|].
    cbn [decode_responseWrapper].
    apply decode_responseWrapper_no_member, Hnone. }
  revert Hsent Hdo Hcode Hread Hparse. run_cases; same_exchange. reflexivity.
Qed.

(** X6: [KeyPaired] read off the document.  In a successful call, when the
    last member named [response] is an object and the last member named
    [key_paired_vins] in it is an array, [KeyPaired] tells whether that array
    has exactly one element; when that member is [null], [KeyPaired] is
    false. *)
Theorem GetFleetStatus_KeyPaired_document ctx token vin w fs h req resp
    top inner j :
  let run := GetFleetStatus ctx token vin w in
  fst run = (Some fs, None) ->
  sent (snd run) = sent w ++ [(h, req)] ->
  Client_Do h req = Ok resp ->
  json_scan (ReadCloser_data (Body resp)) = Some (JObject top) ->
  last_member "response" top = Some (JObject inner) ->
  last_member "key_paired_vins" inner = Some j ->
  KeyPaired fs =
    match j with
    | JArray elems => (length elems =? 1)%nat
    | _ => false
    end.
Proof.
  cbn zeta. intros Hrun Hsent Hdo Hscan Hresponse Hpaired.
  assert (exists respBody,
            json_Unmarshal (ReadCloser_data (Body resp)) responseWrapper_zero
            = (respBody, None) /\
            KeyPaired fs = (length (KeyPairedVINs (Response respBody)) =? 1)%nat)
    as (respBody & Hparse & ->).
  { revert Hrun Hsent Hdo. run_cases; same_exchange.
    eexists. split; [eassumption|reflexivity]. }
  unfold json_Unmarshal in Hparse. rewrite Hscan in Hparse.
  cbn [decode_responseWrapper] in Hparse.
  pose proof (decode_responseWrapper_Response _ _ _ _ Hparse) as Hr.
  rewrite Hresponse in Hr. destruct Hr as [c Hr].
  cbn [decode_fleetStatus] in Hr.
  pose proof (decode_fleetStatus_KeyPairedVINs _ _ _ _ Hr) as Hk.
  rewrite Hpaired in Hk. rewrite Hk. destruct j; reflexivity.
Qed.

(** X7: the VIN is looked up as it is written.  In a successful call, when
    the document has no member named exactly like the queried VIN under
    [response] and [vehicle_info] (a VIN in another letter case does not
    count), every per-vehicle field of the result is zero or absent. *)
Theorem GetFleetStatus_vin_not_written ctx token vin w fs h req resp doc :
  let run := GetFleetStatus ctx token vin w in
  fst run = (Some fs, None) ->
  sent (snd run) = sent w ++ [(h, req)] ->
  Client_Do h req = Ok resp ->
  json_scan (ReadCloser_data (Body resp)) = Some doc ->
  (forall j, ~ entry_in_document doc vin j) ->
  VehicleCommandProtocolRequired fs = false /\
  SafetyScreenStreamingToggleEnabled fs = None /\
  FirmwareVersion fs = "" /\
  FleetTelemetryVersion fs = None /\
  TotalNumberOfKeys fs = None /\
  DiscountedDeviceData fs = false.
Proof.
  cbn zeta. intros Hrun Hsent Hdo Hscan Hnone.
  revert Hrun Hsent Hdo. run_cases; same_exchange.
  match goal with E : json_Unmarshal _ _ = (?rb, None) |- _ =>
    destruct (VehicleInfo (Response rb) !! vin) as [info|] eqn:Hinfo;
    [destruct (json_Unmarshal_origin _ _ _ _ E Hinfo) as (doc' & j & Hdoc' & Hj & _)
    |]
  end.
  - rewrite Hscan in Hdoc'. injection Hdoc' as <-. destruct (Hnone j Hj).
  - cbn. auto 10.
Qed.

(** X8: where the token and the VIN go.  Two calls on the same client and
    context that both hand over a request hand it to the same transport, with
    the same method and URL; the headers differ at most in [Authorization],
    which is [Bearer] and the token of the call; the body is the serialised
    object of the call's VIN. *)
Theorem GetFleetStatus_request_confinement ctx w token1 vin1 token2 vin2
    h1 req1 h2 req2 :
  sent (snd (GetFleetStatus ctx token1 vin1 w)) = sent w ++ [(h1, req1)] ->
  sent (snd (GetFleetStatus ctx token2 vin2 w)) = sent w ++ [(h2, req2)] ->
  h1 = h2 /\
  Request_ctx req1 = Request_ctx req2 /\
  Request_Method req1 = Request_Method req2 /\
  Request_URL req1 = Request_URL req2 /\
  (forall key, key <> "Authorization" ->
     Request_Header req1 !! key = Request_Header req2 !! key) /\
  Request_Header req1 !! "Authorization" = Some ["Bearer " +:+ token1] /\
  Request_Header req2 !! "Authorization" = Some ["Bearer " +:+ token2] /\
  Request_Body req1 = fst (json_Marshal (JObject [("vins", JArray [JString vin1])])) /\
  Request_Body req2 = fst (json_Marshal (JObject [("vins", JArray [JString vin2])])).
Proof.
  intros Hsent1 Hsent2.
  destruct (GetFleetStatus_sent_inv _ _ _ _ _ _ Hsent1) as (c1 & u1 & -> & Hb1 & Hu1).
  destruct (GetFleetStatus_sent_inv _ _ _ _ _ _ Hsent2) as (c2 & u2 & [= <-] & Hb2 & Hu2).
  rewrite (GetFleetStatus_sent _ _ _ _ _ Hb1 Hu1) in Hsent1.
  rewrite (GetFleetStatus_sent _ _ _ _ _ Hb2 Hu2) in Hsent2.
  apply snoc_eq_inv in Hsent1, Hsent2. injection Hsent1 as <- <-.
  injection Hsent2 as <- <-. cbn.
  rewrite Hu1 in Hu2. injection Hu2 as <-.
  repeat split; try reflexivity.
  intros key Hkey. unfold http_Header.
  destruct (decide (key = "Content-Type")) as [->|Hct].
  - rewrite !lookup_insert_eq. reflexivity.
  - rewrite !lookup_insert_ne by congruence. reflexivity.
Qed.

End Properties.

Section Construction.
Context `{Globals}.

Lemma New_snoc (options : list Option) (opt : Option) :
  New (options ++ [opt]) = opt (New options).
Proof. unfold New. rewrite fold_left_app. reflexivity. Qed.

Lemma New_app (options rest : list Option) :
  New (options ++ rest) = fold_left (fun c opt => opt c) rest (New options).
Proof. unfold New. rewrite fold_left_app. reflexivity. Qed.

(** Options that leave a field alone leave it alone together. *)
Lemma fold_options_preserve {A} (get : Client -> A) (rest : list Option) :
  Forall (fun opt => forall c, get (opt c) = get c) rest ->
  forall c, get (fold_left (fun c opt => opt c) rest c) = get c.
Proof.
  induction 1 as [|opt rest Hopt _ IH]; intros c; cbn; [reflexivity|].
  rewrite IH. apply Hopt.
Qed.

(** C6: [New] starts from the default transport and the production base
    URL, applies the options in their order, so that the last option to set
    a field decides it, and returns the client, for any list of options and
    any value an option carries. *)
Theorem New_applies_options :
  New [] = {| hc := http_DefaultClient; baseURL := DefaultBaseURL |} /\
  url_Parse "https://fleet-api.prd.na.vn.cloud.tesla.com" = Ok DefaultBaseURL /\
  (forall options opt, New (options ++ [opt]) = opt (New options)) /\
  (forall options u rest,
     Forall (fun opt : Option => forall c, baseURL (opt c) = baseURL c) rest ->
     baseURL (New (options ++ WithBaseURL u :: rest)) = u) /\
  (forall options h rest,
     Forall (fun opt : Option => forall c, hc (opt c) = hc c) rest ->
     hc (New (options ++ WithHTTPClient h :: rest)) = h) /\
  (forall h c, baseURL (WithHTTPClient h c) = baseURL c) /\
  (forall u c, hc (WithBaseURL u c) = hc c).
Proof.
  split; [reflexivity|]. split; [exact DefaultBaseURL_parsed|].
  split; [exact New_snoc|].
  split; [|split; [|split; reflexivity]].
  - intros options u rest Hrest. rewrite New_app. cbn [fold_left].
    rewrite (fold_options_preserve baseURL rest Hrest). reflexivity.
  - intros options h rest Hrest. rewrite New_app. cbn [fold_left].
    rewrite (fold_options_preserve hc rest Hrest). reflexivity.
Qed.

(** The client of [New] over a list of the options of the package. *)
Lemma New_of_provided (os : list (http_Client + URL)) :
  New (provided <$> os) =
    {| hc := default http_DefaultClient (last_HTTPClient os);
       baseURL := default DefaultBaseURL (last_BaseURL os) |}.
Proof.
  induction os as [|o os IH] using rev_ind; [reflexivity|].
  rewrite fmap_app. cbn [fmap list_fmap]. rewrite New_snoc, IH.
  unfold last_HTTPClient, last_BaseURL. rewrite !omap_app.
  destruct o as [h|u]; cbn [omap list_omap provided WithHTTPClient WithBaseURL hc baseURL].
  - rewrite last_snoc, app_nil_r. reflexivity.
  - rewrite last_snoc, app_nil_r. reflexivity.
Qed.

(** X9: the client of [New] over the options of the package.  Whatever
    their number and order, the transport is the one of the last
    [WithHTTPClient], the default client when there is none, and the base URL
    the one of the last [WithBaseURL], the default URL when there is none. *)
Theorem New_provided (os : list (http_Client + URL)) :
  New (provided <$> os) =
    {| hc := default http_DefaultClient (last_HTTPClient os);
       baseURL := default DefaultBaseURL (last_BaseURL os) |}.
Proof. exact (New_of_provided os). Qed.

(** X10: a call on the client of [New].  When the request can be built, it
    is handed to the transport of the last [WithHTTPClient] among the
    options, to [http.DefaultClient] when there is none, and its URL is parsed
    from the base URL of the last [WithBaseURL], or the default one, joined
    with the path of the endpoint. *)
Theorem New_GetFleetStatus_sent (os : list (http_Client + URL)) ctx0 token vin w u :
  client w = New (provided <$> os) ->
  snd (json_Marshal (JObject [("vins", JArray [JString vin])])) = None ->
  url_Parse
    (URL_String
       (URL_JoinPath (default DefaultBaseURL (last_BaseURL os))
          ["api/1/vehicles/fleet_status"])) = Ok u ->
  sent (snd (GetFleetStatus (Some ctx0) token vin w)) =
    sent w ++
    [(default http_DefaultClient (last_HTTPClient os),
      {| Request_ctx := ctx0;
         Request_Method := "POST";
         Request_URL := u;
         Request_Header :=
           <["Content-Type" := ["application/json"]]>
             (<["Authorization" := ["Bearer " +:+ token]]> ∅);
         Request_Body :=
           fst (json_Marshal (JObject [("vins", JArray [JString vin])])) |})].
Proof.
  intros Hclient Hbody Hu. rewrite New_of_provided in Hclient.
  rewrite (GetFleetStatus_sent ctx0 token vin w u Hbody).
  - rewrite Hclient. reflexivity.
  - rewrite Hclient. exact Hu.
Qed.

End Construction.

(** * The client run on concrete responses *)

Section Runs.
Import Fixture.
#[local] Existing Instance library.
#[local] Existing Instance globals.

(** The response of the fleet API for a paired vehicle. *)
Example run_paired :
  fst (GetFleetStatus background "token" vin1 (fresh (client_of (Ok resp_paired))))
  = (Some status1, None).
Proof. vm_compute. reflexivity. Qed.

(** Status 403: an error that names the code, and no result. *)
Example run_forbidden :
  fst (GetFleetStatus background "token" vin1 (fresh (client_of (Ok resp_forbidden))))
  = (None, Some (errorString "status code 403")).
Proof. vm_compute. reflexivity. Qed.

Example unmarshal_paired :
  json_Unmarshal (write doc_paired) responseWrapper_zero = (parsed_paired, None).
Proof. vm_compute. reflexivity. Qed.

Example unmarshal_other_paired :
  json_Unmarshal (write doc_other_paired) responseWrapper_zero
  = (parsed_other_paired, None).
Proof. vm_compute. reflexivity. Qed.

(** A body that is the text [null] stores nothing: every field keeps its
    zero value. *)
Example unmarshal_null_value :
  decode_responseWrapper responseWrapper_zero JNull None
  = (responseWrapper_zero, None).
Proof. reflexivity. Qed.

(** Member names are matched without regard to case; [null] empties a
    pointer field that an earlier member of the same name had filled. *)
Example decode_folded_names :
  fst (decode_vehicleInfo vehicleInfo_zero
         (JObject [("Total_Number_Of_Keys", JNumber "4");
                   ("FIRMWARE_VERSION", JString "2024.2");
                   ("total_number_of_keys", JNull)]) None)
  = {| vehicleInfo_VehicleCommandProtocolRequired := false;
       vehicleInfo_SafetyScreenStreamingToggleEnabled := None;
       vehicleInfo_FirmwareVersion := "2024.2";
       vehicleInfo_FleetTelemetryVersion := None;
       vehicleInfo_TotalNumberOfKeys := None;
       vehicleInfo_DiscountedDeviceData := false |}.
Proof. vm_compute. reflexivity. Qed.

(** A number that is not an [int] is a type error, and decoding goes on. *)
Example decode_fraction :
  decode_vehicleInfo vehicleInfo_zero
    (JObject [("total_number_of_keys", JNumber "2.5");
              ("discounted_device_data", JBool true)]) None
  = ({| vehicleInfo_VehicleCommandProtocolRequired := false;
        vehicleInfo_SafetyScreenStreamingToggleEnabled := None;
        vehicleInfo_FirmwareVersion := "";
        vehicleInfo_FleetTelemetryVersion := None;
        vehicleInfo_TotalNumberOfKeys := Some 0%Z;
        vehicleInfo_DiscountedDeviceData := true |},
     Some (UnmarshalTypeError "number 2.5" "int")).
Proof. vm_compute. reflexivity. Qed.

Example ParseInt_bounds :
  strconv_ParseInt "9223372036854775807" = Some 9223372036854775807%Z /\
  strconv_ParseInt "9223372036854775808" = None /\
  strconv_ParseInt "-9223372036854775808" = Some (-9223372036854775808)%Z /\
  strconv_ParseInt "1e2" = None /\ strconv_ParseInt "" = None.
Proof. repeat split; vm_compute; reflexivity. Qed.

(** A transport failure is wrapped and returned after the one request. *)
Example run_transport_failure :
  let run := GetFleetStatus background "token" vin1
               (fresh (client_of (Err (errorString "connection refused")))) in
  fst run = (None, Some (wrapError "request failed: "
                           (errorString "connection refused"))) /\
  length (sent (snd run)) = 1 /\ closed (snd run) = [].
Proof. vm_compute. repeat split. Qed.

(** C1 at a response whose one paired VIN is not the VIN asked for. *)
Lemma GetFleetStatus_KeyPaired_witness :
  let w := fresh (client_of (Ok resp_other_paired)) in
  let run := GetFleetStatus background "token" vin1 w in
  fst run = (Some status1, None) /\
  exists h req resp respBody,
    sent (snd run) = sent w ++ [(h, req)] /\
    Client_Do h req = Ok resp /\
    json_Unmarshal (ReadCloser_data (Body resp)) responseWrapper_zero
      = (respBody, None) /\
    (KeyPaired status1 = true <-> length (KeyPairedVINs (Response respBody)) = 1) /\
    KeyPaired status1 = true /\
    vin1 ∉ KeyPairedVINs (Response respBody).
Proof.
  cbn zeta. split; [vm_compute; reflexivity|].
  destruct (GetFleetStatus_KeyPaired background "token" vin1
              (fresh (client_of (Ok resp_other_paired))) status1)
    as (h & req & resp & respBody & Hsent & Hdo & Hparse & Hiff);
    [vm_compute; reflexivity|].
  exists h, req, resp, respBody. repeat split; try assumption; try apply Hiff.
  vm_compute in Hsent. injection Hsent as <- <-.
  injection Hdo as <-. vm_compute in Hparse. injection Hparse as <-.
  cbn. intros Hin. apply list_elem_of_singleton in Hin. discriminate.
Defined.

(** C2 at a response with an empty [vehicle_info]. *)
Lemma GetFleetStatus_missing_vin_witness :
  let w := fresh (client_of (Ok resp_no_info)) in
  let run := GetFleetStatus background "token" vin1 w in
  (sent (snd run) = sent w ++ [(answering (Ok resp_no_info), request_for "token" vin1)] /\
   Client_Do (answering (Ok resp_no_info)) (request_for "token" vin1) = Ok resp_no_info /\
   StatusCode resp_no_info = StatusOK /\
   ReadCloser_err (Body resp_no_info) = None /\
   json_Unmarshal (ReadCloser_data (Body resp_no_info)) responseWrapper_zero
     = (parsed_no_info, None) /\
   VehicleInfo (Response parsed_no_info) !! vin1 = None) /\
  fst run =
    (Some {| KeyPaired := true;
             VehicleCommandProtocolRequired := false;
             SafetyScreenStreamingToggleEnabled := None;
             FirmwareVersion := "";
             FleetTelemetryVersion := None;
             TotalNumberOfKeys := None;
             DiscountedDeviceData := false |},
     None).
Proof.
  cbn zeta.
  assert (Hsent : sent (snd (GetFleetStatus background "token" vin1
                               (fresh (client_of (Ok resp_no_info)))))
                  = sent (fresh (client_of (Ok resp_no_info)))
                    ++ [(answering (Ok resp_no_info), request_for "token" vin1)])
    by (vm_compute; reflexivity).
  assert (Hparse : json_Unmarshal (ReadCloser_data (Body resp_no_info))
                     responseWrapper_zero = (parsed_no_info, None))
    by (vm_compute; reflexivity).
  split; [repeat split; solve [assumption | vm_compute; reflexivity]|].
  apply (GetFleetStatus_missing_vin background "token" vin1
           (fresh (client_of (Ok resp_no_info)))
           (answering (Ok resp_no_info)) (request_for "token" vin1)
           resp_no_info parsed_no_info Hsent eq_refl eq_refl eq_refl Hparse eq_refl).
Defined.

(** C3, as the code has it, at a 403 response. *)
Lemma GetFleetStatus_status_error_witness :
  let w := fresh (client_of (Ok resp_forbidden)) in
  let run := GetFleetStatus background "token" vin1 w in
  (sent (snd run) = sent w ++ [(answering (Ok resp_forbidden), request_for "token" vin1)] /\
   Client_Do (answering (Ok resp_forbidden)) (request_for "token" vin1) = Ok resp_forbidden /\
   ReadCloser_err (Body resp_forbidden) = None /\
   StatusCode resp_forbidden <> StatusOK) /\
  fst run = (None, Some (errorString "status code 403")).
Proof.
  cbn zeta.
  assert (Hsent : sent (snd (GetFleetStatus background "token" vin1
                               (fresh (client_of (Ok resp_forbidden)))))
                  = sent (fresh (client_of (Ok resp_forbidden)))
                    ++ [(answering (Ok resp_forbidden), request_for "token" vin1)])
    by (vm_compute; reflexivity).
  assert (Hcode : StatusCode resp_forbidden <> StatusOK) by (vm_compute; discriminate).
  split; [repeat split; solve [assumption | vm_compute; reflexivity]|].
  exact (proj1 (GetFleetStatus_status_error background "token" vin1
                  (fresh (client_of (Ok resp_forbidden)))
                  (answering (Ok resp_forbidden)) (request_for "token" vin1)
                  resp_forbidden Hsent eq_refl eq_refl Hcode)).
Defined.

(** C3 as stated fails: a 503 response whose body cannot be read whole gives
    the read error, which does not name the status code. *)
Lemma GetFleetStatus_status_error_counterexample :
  let w := fresh (client_of (Ok resp_unavailable_broken)) in
  let run := GetFleetStatus background "token" vin1 w in
  sent (snd run)
    = sent w ++ [(answering (Ok resp_unavailable_broken), request_for "token" vin1)] /\
  Client_Do (answering (Ok resp_unavailable_broken)) (request_for "token" vin1)
    = Ok resp_unavailable_broken /\
  StatusCode resp_unavailable_broken = 503%Z /\
  StatusCode resp_unavailable_broken <> StatusOK /\
  fst run = (None, Some (wrapError "failed to read response body: "
                           (errorString "unexpected EOF"))) /\
  fst run <> (None, Some (fmt_Errorf_d "status code "
                            (StatusCode resp_unavailable_broken))).
Proof.
  cbn zeta. repeat split; try (vm_compute; reflexivity); vm_compute; discriminate.
Qed.

(** C4 at the response for a paired vehicle: [null] members give absent
    fields, the others their value. *)
Lemma GetFleetStatus_fields_witness :
  let w := fresh (client_of (Ok resp_paired)) in
  let run := GetFleetStatus background "token" vin1 w in
  fst run = (Some status1, None) /\
  exists h req resp respBody,
    sent (snd run) = sent w ++ [(h, req)] /\
    Client_Do h req = Ok resp /\
    json_Unmarshal (ReadCloser_data (Body resp)) responseWrapper_zero
      = (respBody, None) /\
    forall info, VehicleInfo (Response respBody) !! vin1 = Some info ->
      (VehicleCommandProtocolRequired status1
         = vehicleInfo_VehicleCommandProtocolRequired info /\
       SafetyScreenStreamingToggleEnabled status1
         = vehicleInfo_SafetyScreenStreamingToggleEnabled info /\
       FirmwareVersion status1 = vehicleInfo_FirmwareVersion info /\
       FleetTelemetryVersion status1 = vehicleInfo_FleetTelemetryVersion info /\
       TotalNumberOfKeys status1 = vehicleInfo_TotalNumberOfKeys info /\
       DiscountedDeviceData status1 = vehicleInfo_DiscountedDeviceData info).
Proof.
  cbn zeta. split; [vm_compute; reflexivity|].
  destruct (GetFleetStatus_fields background "token" vin1
              (fresh (client_of (Ok resp_paired))) status1)
    as (h & req & resp & respBody & Hsent & Hdo & Hparse & Hfields);
    [vm_compute; reflexivity|].
  exists h, req, resp, respBody. repeat split; try assumption;
    destruct (Hfields info) as [(F1 & F2 & F3 & F4 & F5 & F6) _]; assumption.
Defined.

(** C5 at the same response: a result, no error, after a whole parse. *)
Lemma GetFleetStatus_result_xor_error_witness :
  let w := fresh (client_of (Ok resp_paired)) in
  let run := GetFleetStatus background "token" vin1 w in
  fst (fst run) = Some status1 /\
  exists h req resp respBody,
    sent (snd run) = sent w ++ [(h, req)] /\
    Client_Do h req = Ok resp /\
    ReadCloser_err (Body resp) = None /\
    StatusCode resp = StatusOK /\
    json_Unmarshal (ReadCloser_data (Body resp)) responseWrapper_zero
      = (respBody, None).
Proof.
  cbn zeta. split; [vm_compute; reflexivity|].
  apply (proj2 (GetFleetStatus_result_xor_error background "token" vin1
                  (fresh (client_of (Ok resp_paired)))) status1).
  vm_compute. reflexivity.
Defined.

(** C6 on three options: the second base URL stands, the transport set last
    leaves it alone. *)
Lemma New_applies_options_witness :
  let rest : list Option := [WithHTTPClient (answering (Ok resp_paired))] in
  Forall (fun opt : Option => forall c, baseURL (opt c) = baseURL c) rest /\
  baseURL (New ([WithBaseURL "https://a.example"]
                ++ WithBaseURL "https://b.example" :: rest))
  = "https://b.example".
Proof.
  cbn zeta.
  assert (Hrest : Forall (fun opt : Option => forall c, baseURL (opt c) = baseURL c)
                    [WithHTTPClient (answering (Ok resp_paired))])
    by (constructor; [reflexivity|constructor]).
  split; [exact Hrest|].
  exact (proj1 (proj2 (proj2 (proj2 New_applies_options)))
           [WithBaseURL "https://a.example"] "https://b.example"
           [WithHTTPClient (answering (Ok resp_paired))] Hrest).
Defined.

(** C7, as the code has it, on a client whose transport fails: the one
    request is still handed over. *)
Lemma GetFleetStatus_one_request_witness :
  let c := client_of (Err (errorString "connection refused")) in
  let run := GetFleetStatus background "token" vin1 (fresh c) in
  (snd (json_Marshal (JObject [("vins", JArray [JString vin1])])) = None /\
   background = Some tt /\
   url_Parse (URL_String (URL_JoinPath (baseURL c) ["api/1/vehicles/fleet_status"]))
   = Ok "https://fleet-api.prd.na.vn.cloud.tesla.com/api/1/vehicles/fleet_status") /\
  sent (snd run) = [(hc c, request_for "token" vin1)].
Proof.
  cbn zeta. split; [repeat split|].
  exact (proj1 (GetFleetStatus_one_request background "token" vin1
                  (fresh (client_of (Err (errorString "connection refused")))))
           tt "https://fleet-api.prd.na.vn.cloud.tesla.com/api/1/vehicles/fleet_status"
           eq_refl eq_refl eq_refl).
Defined.

(** C7 as stated fails: with a nil context the request cannot be built, the
    call returns the construction error and the transport is handed
    nothing. *)
Lemma GetFleetStatus_one_request_counterexample :
  let w := fresh (client_of (Ok resp_paired)) in
  let run := GetFleetStatus None "token" vin1 w in
  fst run = (None, Some (wrapError "failed to construct request: "
                           (errorString "net/http: nil Context"))) /\
  sent (snd run) = [] /\
  ~ exists sending, sent (snd run) = sent w ++ [sending].
Proof.
  cbn zeta. split; [vm_compute; reflexivity|]. split; [vm_compute; reflexivity|].
  intros [sending E]. vm_compute in E. discriminate.
Qed.

(** C9 at a 503 response whose body cannot be read whole. *)
Lemma GetFleetStatus_read_before_status_witness :
  let w := fresh (client_of (Ok resp_unavailable_broken)) in
  let run := GetFleetStatus background "token" vin1 w in
  (sent (snd run)
     = sent w ++ [(answering (Ok resp_unavailable_broken), request_for "token" vin1)] /\
   Client_Do (answering (Ok resp_unavailable_broken)) (request_for "token" vin1)
     = Ok resp_unavailable_broken /\
   ReadCloser_err (Body resp_unavailable_broken)
     = Some (errorString "unexpected EOF")) /\
  fst run = (None, Some (fmt_Errorf_w "failed to read response body: "
                           (errorString "unexpected EOF"))).
Proof.
  cbn zeta.
  assert (Hsent : sent (snd (GetFleetStatus background "token" vin1
                               (fresh (client_of (Ok resp_unavailable_broken)))))
                  = sent (fresh (client_of (Ok resp_unavailable_broken)))
                    ++ [(answering (Ok resp_unavailable_broken),
                         request_for "token" vin1)])
    by (vm_compute; reflexivity).
  split; [repeat split; solve [assumption | reflexivity]|].
  exact (proj1 (GetFleetStatus_read_before_status background "token" vin1
                  (fresh (client_of (Ok resp_unavailable_broken)))
                  (answering (Ok resp_unavailable_broken)) (request_for "token" vin1)
                  resp_unavailable_broken Hsent eq_refl)
           (errorString "unexpected EOF") eq_refl).
Defined.

(** C10 at two responses that describe [vin1] alike and both list one paired
    VIN, but differ in that VIN, in [unpaired_vins] and in the other
    entries. *)
Lemma GetFleetStatus_depends_only_on_witness :
  let w1 := fresh (client_of (Ok resp_paired)) in
  let w2 := fresh (client_of (Ok resp_other_paired)) in
  let run1 := GetFleetStatus background "token" vin1 w1 in
  let run2 := GetFleetStatus background "another" vin1 w2 in
  (json_Unmarshal (ReadCloser_data (Body resp_paired)) responseWrapper_zero
     = (parsed_paired, None) /\
   json_Unmarshal (ReadCloser_data (Body resp_other_paired)) responseWrapper_zero
     = (parsed_other_paired, None) /\
   UnpairedVINs (Response parsed_paired) <> UnpairedVINs (Response parsed_other_paired) /\
   VehicleInfo (Response parsed_paired) !! vin2
     <> VehicleInfo (Response parsed_other_paired) !! vin2 /\
   length (KeyPairedVINs (Response parsed_paired))
     = length (KeyPairedVINs (Response parsed_other_paired)) /\
   VehicleInfo (Response parsed_paired) !! vin1
     = VehicleInfo (Response parsed_other_paired) !! vin1) /\
  fst run1 = fst run2.
Proof.
  cbn zeta.
  assert (Hsent1 : sent (snd (GetFleetStatus background "token" vin1
                                (fresh (client_of (Ok resp_paired)))))
                   = sent (fresh (client_of (Ok resp_paired)))
                     ++ [(answering (Ok resp_paired), request_for "token" vin1)])
    by (vm_compute; reflexivity).
  assert (Hsent2 : sent (snd (GetFleetStatus background "another" vin1
                                (fresh (client_of (Ok resp_other_paired)))))
                   = sent (fresh (client_of (Ok resp_other_paired)))
                     ++ [(answering (Ok resp_other_paired),
                          request_for "another" vin1)])
    by (vm_compute; reflexivity).
  assert (Hparse1 : json_Unmarshal (ReadCloser_data (Body resp_paired))
                      responseWrapper_zero = (parsed_paired, None))
    by (vm_compute; reflexivity).
  assert (Hparse2 : json_Unmarshal (ReadCloser_data (Body resp_other_paired))
                      responseWrapper_zero = (parsed_other_paired, None))
    by (vm_compute; reflexivity).
  assert (Hinfo : VehicleInfo (Response parsed_paired) !! vin1
                  = VehicleInfo (Response parsed_other_paired) !! vin1)
    by (vm_compute; reflexivity).
  split.
  - repeat split; try assumption; try reflexivity; vm_compute; discriminate.
  - exact (GetFleetStatus_depends_only_on background background "token" "another"
             vin1 (fresh (client_of (Ok resp_paired)))
             (fresh (client_of (Ok resp_other_paired)))
             (answering (Ok resp_paired)) (request_for "token" vin1)
             resp_paired parsed_paired
             (answering (Ok resp_other_paired)) (request_for "another" vin1)
             resp_other_paired parsed_other_paired
             Hsent1 eq_refl eq_refl eq_refl Hparse1
             Hsent2 eq_refl eq_refl eq_refl Hparse2 eq_refl Hinfo).
Defined.

End Runs.

(** * Further runs *)

Section MoreRuns.
Import Fixture.
#[local] Existing Instance library.
#[local] Existing Instance globals.

(** X1 at a 503 response whose body cannot be read whole: it is closed all
    the same. *)
Lemma GetFleetStatus_closes_body_witness :
  let w := fresh (client_of (Ok resp_unavailable_broken)) in
  let run := GetFleetStatus background "token" vin1 w in
  (sent (snd run)
     = sent w ++ [(answering (Ok resp_unavailable_broken), request_for "token" vin1)] /\
   Client_Do (answering (Ok resp_unavailable_broken)) (request_for "token" vin1)
     = Ok resp_unavailable_broken) /\
  closed (snd run) = [Body resp_unavailable_broken].
Proof.
  cbn zeta.
  assert (Hsent : sent (snd (GetFleetStatus background "token" vin1
                               (fresh (client_of (Ok resp_unavailable_broken)))))
                  = sent (fresh (client_of (Ok resp_unavailable_broken)))
                    ++ [(answering (Ok resp_unavailable_broken),
                         request_for "token" vin1)])
    by (vm_compute; reflexivity).
  split; [split; [exact Hsent|reflexivity]|].
  exact (proj1 (GetFleetStatus_closes_body background "token" vin1
                  (fresh (client_of (Ok resp_unavailable_broken))))
           (answering (Ok resp_unavailable_broken)) (request_for "token" vin1)
           resp_unavailable_broken Hsent eq_refl).
Defined.

(** X2 at a transport failure: the returned error wraps the error of the
    transport. *)
Lemma GetFleetStatus_error_cause_witness :
  let w := fresh (client_of (Err (errorString "connection refused"))) in
  let run := GetFleetStatus background "token" vin1 w in
  let e := wrapError "request failed: " (errorString "connection refused") in
  snd (fst run) = Some e /\
  errors_Unwrap e = Some (errorString "connection refused") /\
  exists h req,
    sent (snd run) = sent w ++ [(h, req)] /\
    Client_Do h req = Err (errorString "connection refused").
Proof.
  cbn zeta. split; [vm_compute; reflexivity|]. split; [reflexivity|].
  destruct (GetFleetStatus_error_cause background "token" vin1
              (fresh (client_of (Err (errorString "connection refused"))))
              (wrapError "request failed: " (errorString "connection refused")))
    as [[Hnone _]|(cause & Hcause & Hstep)];
    [vm_compute; reflexivity|discriminate|].
  unfold errors_Unwrap in Hcause. injection Hcause as Hcause. subst cause.
  destruct Hstep as [Hstep|[Hstep|[Hstep|(h & req & resp & Hs & Hdo & _)]]].
  - vm_compute in Hstep. discriminate.
  - vm_compute in Hstep. discriminate.
  - exact Hstep.
  - vm_compute in Hs. injection Hs as <- <-. vm_compute in Hdo. discriminate.
Defined.

(** X8 at two calls with different tokens and VINs. *)
Lemma GetFleetStatus_request_confinement_witness :
  let w := fresh (client_of (Ok resp_paired)) in
  (sent (snd (GetFleetStatus background "token" vin1 w))
     = sent w ++ [(answering (Ok resp_paired), request_for "token" vin1)] /\
   sent (snd (GetFleetStatus background "another" vin2 w))
     = sent w ++ [(answering (Ok resp_paired), request_for "another" vin2)]) /\
  Request_URL (request_for "token" vin1) = Request_URL (request_for "another" vin2) /\
  (forall key, key <> "Authorization" ->
     Request_Header (request_for "token" vin1) !! key
     = Request_Header (request_for "another" vin2) !! key).
Proof.
  cbn zeta.
  assert (Hsent1 : sent (snd (GetFleetStatus background "token" vin1
                                (fresh (client_of (Ok resp_paired)))))
                   = sent (fresh (client_of (Ok resp_paired)))
                     ++ [(answering (Ok resp_paired), request_for "token" vin1)])
    by (vm_compute; reflexivity).
  assert (Hsent2 : sent (snd (GetFleetStatus background "another" vin2
                                (fresh (client_of (Ok resp_paired)))))
                   = sent (fresh (client_of (Ok resp_paired)))
                     ++ [(answering (Ok resp_paired), request_for "another" vin2)])
    by (vm_compute; reflexivity).
  split; [split; assumption|].
  destruct (GetFleetStatus_request_confinement background
              (fresh (client_of (Ok resp_paired))) "token" vin1 "another" vin2
              _ _ _ _ Hsent1 Hsent2)
    as (_ & _ & _ & Hurl & Hheader & _).
  split; assumption.
Defined.

(** X10 on three options: the request goes to the transport set, at the
    second of the two base URLs. *)
Lemma New_GetFleetStatus_sent_witness :
  let os : list (http_Client + URL) :=
    [inr "https://a.example"; inl (answering (Ok resp_paired));
     inr "https://b.example"] in
  let w := fresh (New (provided <$> os)) in
  (client w = New (provided <$> os) /\
   snd (json_Marshal (JObject [("vins", JArray [JString vin1])])) = None /\
   url_Parse
     (URL_String
        (URL_JoinPath (default DefaultBaseURL (last_BaseURL os))
           ["api/1/vehicles/fleet_status"]))
   = Ok "https://b.example/api/1/vehicles/fleet_status") /\
  exists req,
    sent (snd (GetFleetStatus (Some tt) "token" vin1 w))
    = [(answering (Ok resp_paired), req)] /\
    Request_URL req = "https://b.example/api/1/vehicles/fleet_status".
Proof.
  cbn zeta. split; [repeat split|].
  eexists. split.
  - exact (New_GetFleetStatus_sent
             [inr "https://a.example"; inl (answering (Ok resp_paired));
              inr "https://b.example"] tt "token" vin1
             (fresh (New (provided <$>
                [inr "https://a.example"; inl (answering (Ok resp_paired));
                 inr "https://b.example"])))
             "https://b.example/api/1/vehicles/fleet_status"
             eq_refl eq_refl eq_refl).
  - reflexivity.
Defined.

End MoreRuns.

Section CaseRuns.
Import Cases.
#[local] Existing Instance library.
#[local] Existing Instance globals.

(** The request a call for [vin1] hands to a transport that answers [resp]. *)
Lemma sent_fresh resp token :
  sent (snd (GetFleetStatus background token Fixture.vin1
               (fresh (client_of (Ok resp)))))
  = sent (fresh (client_of (Ok resp)))
    ++ [(answering (Ok resp), request_for token Fixture.vin1)].
Proof.
  exact (GetFleetStatus_sent (H := library) tt token Fixture.vin1
           (fresh (client_of (Ok resp)))
           "https://fleet-api.prd.na.vn.cloud.tesla.com/api/1/vehicles/fleet_status"
           eq_refl eq_refl).
Defined.

(** X3 at a document whose [unpaired_vins] is a string, asked for a vehicle
    that is described well. *)
Lemma GetFleetStatus_unread_field_type_error_witness :
  let resp := ok200 doc_bad_unpaired in
  let run := GetFleetStatus background "token" Fixture.vin1
               (fresh (client_of (Ok resp))) in
  json_scan (ReadCloser_data (Body resp)) = Some doc_bad_unpaired /\
  fst run = (None, Some (wrapError "failed to parse response body: "
                           (UnmarshalTypeError "string" "[]string"))) /\
  exists cause,
    fst run = (None, Some (fmt_Errorf_w "failed to parse response body: " cause)).
Proof.
  cbn zeta. split; [vm_compute; reflexivity|]. split; [vm_compute; reflexivity|].
  apply (GetFleetStatus_unread_field_type_error background "token" Fixture.vin1
           (fresh (client_of (Ok (ok200 doc_bad_unpaired))))
           (answering (Ok (ok200 doc_bad_unpaired)))
           (request_for "token" Fixture.vin1) (ok200 doc_bad_unpaired)
           [("response", JObject [
               ("key_paired_vins", JArray [JString Fixture.vin1]);
               ("unpaired_vins", JString "none");
               ("vehicle_info", JObject [(Fixture.vin1, Fixture.info1)])])]
           "response"
           [("key_paired_vins", JArray [JString Fixture.vin1]);
            ("unpaired_vins", JString "none");
            ("vehicle_info", JObject [(Fixture.vin1, Fixture.info1)])]
           "unpaired_vins" (JString "none")
           (sent_fresh _ _) eq_refl eq_refl eq_refl);
    try (vm_compute; reflexivity); try discriminate.
  - apply list_elem_of_here.
  - apply list_elem_of_further, list_elem_of_here.
Defined.

(** X4 at a document in which the description of [vin2] is an array, asked
    for [vin1]. *)
Lemma GetFleetStatus_other_entry_type_error_witness :
  let resp := ok200 doc_bad_entry in
  let run := GetFleetStatus background "token" Fixture.vin1
               (fresh (client_of (Ok resp))) in
  json_scan (ReadCloser_data (Body resp)) = Some doc_bad_entry /\
  exists cause,
    fst run = (None, Some (fmt_Errorf_w "failed to parse response body: " cause)).
Proof.
  cbn zeta. split; [vm_compute; reflexivity|].
  apply (GetFleetStatus_other_entry_type_error background "token" Fixture.vin1
           (fresh (client_of (Ok (ok200 doc_bad_entry))))
           (answering (Ok (ok200 doc_bad_entry)))
           (request_for "token" Fixture.vin1) (ok200 doc_bad_entry)
           [("response", JObject [
               ("key_paired_vins", JArray [JString Fixture.vin1]);
               ("unpaired_vins", JArray []);
               ("vehicle_info",
                JObject [(Fixture.vin1, Fixture.info1); (Fixture.vin2, JArray [])])])]
           "response"
           [("key_paired_vins", JArray [JString Fixture.vin1]);
            ("unpaired_vins", JArray []);
            ("vehicle_info",
             JObject [(Fixture.vin1, Fixture.info1); (Fixture.vin2, JArray [])])]
           "vehicle_info"
           [(Fixture.vin1, Fixture.info1); (Fixture.vin2, JArray [])]
           Fixture.vin2 (JArray [])
           (sent_fresh _ _) eq_refl eq_refl eq_refl);
    try (vm_compute; reflexivity); try discriminate.
  - apply list_elem_of_here.
  - do 2 apply list_elem_of_further. apply list_elem_of_here.
  - apply list_elem_of_further, list_elem_of_here.
Defined.

(** X5 at a 200 response that carries an error object instead of the
    envelope. *)
Lemma GetFleetStatus_no_envelope_witness :
  let resp := ok200 doc_no_envelope in
  let run := GetFleetStatus background "token" Fixture.vin1
               (fresh (client_of (Ok resp))) in
  (json_scan (ReadCloser_data (Body resp)) = Some doc_no_envelope /\
   last_member "response"
     [("error", JString "not_found"); ("error_description", JString "")] = None) /\
  fst run =
    (Some {| KeyPaired := false;
             VehicleCommandProtocolRequired := false;
             SafetyScreenStreamingToggleEnabled := None;
             FirmwareVersion := "";
             FleetTelemetryVersion := None;
             TotalNumberOfKeys := None;
             DiscountedDeviceData := false |},
     None).
Proof.
  cbn zeta. split; [split; vm_compute; reflexivity|].
  apply (GetFleetStatus_no_envelope background "token" Fixture.vin1
           (fresh (client_of (Ok (ok200 doc_no_envelope))))
           (answering (Ok (ok200 doc_no_envelope)))
           (request_for "token" Fixture.vin1) (ok200 doc_no_envelope)
           doc_no_envelope (sent_fresh _ _) eq_refl eq_refl eq_refl).
  - vm_compute. reflexivity.
  - right. eexists. split; [reflexivity|]. vm_compute. reflexivity.
Defined.

(** X6 at a document with two paired VINs, the queried one among them:
    [KeyPaired] is false. *)
Lemma GetFleetStatus_KeyPaired_document_witness :
  let resp := ok200 doc_two_paired in
  let run := GetFleetStatus background "token" Fixture.vin1
               (fresh (client_of (Ok resp))) in
  let fs := {| KeyPaired := false;
               VehicleCommandProtocolRequired := true;
               SafetyScreenStreamingToggleEnabled := None;
               FirmwareVersion := "2024.8.1";
               FleetTelemetryVersion := None;
               TotalNumberOfKeys := Some 3%Z;
               DiscountedDeviceData := false |} in
  fst run = (Some fs, None) /\
  json_scan (ReadCloser_data (Body resp)) = Some doc_two_paired /\
  KeyPaired fs = (length [JString Fixture.vin1; JString Fixture.vin2] =? 1)%nat.
Proof.
  cbn zeta. split; [vm_compute; reflexivity|]. split; [vm_compute; reflexivity|].
  apply (GetFleetStatus_KeyPaired_document background "token" Fixture.vin1
           (fresh (client_of (Ok (ok200 doc_two_paired)))) _
           (answering (Ok (ok200 doc_two_paired)))
           (request_for "token" Fixture.vin1) (ok200 doc_two_paired)
           [("response", JObject [
               ("key_paired_vins",
                JArray [JString Fixture.vin1; JString Fixture.vin2]);
               ("unpaired_vins", JArray []);
               ("vehicle_info", JObject [(Fixture.vin1, Fixture.info1)])])]
           [("key_paired_vins",
             JArray [JString Fixture.vin1; JString Fixture.vin2]);
            ("unpaired_vins", JArray []);
            ("vehicle_info", JObject [(Fixture.vin1, Fixture.info1)])]
           (JArray [JString Fixture.vin1; JString Fixture.vin2]));
    first [apply sent_fresh | vm_compute; reflexivity].
Defined.

(** No member of the document for the lower-case spelling is named
    [vin1]. *)
Lemma doc_lower_vin_unwritten j : ~ entry_in_document doc_lower_vin Fixture.vin1 j.
Proof.
  intros (top & key1 & inner & key2 & infos & Hdoc & Hin1 & _ & Hin2 & _ & Hin3).
  injection Hdoc as <-.
  apply list_elem_of_singleton in Hin1. injection Hin1 as _ ->.
  repeat match goal with
  | E : _ ∈ _ :: _ |- _ => apply elem_of_cons in E as [E|E]
  | E : _ ∈ [] |- _ => apply elem_of_nil in E; destruct E
  | E : (_, _) = (_, _) |- _ => injection E as ? ?; subst
  end; try discriminate.
Defined.

(** X7 at a document that describes [vin1] under its lower-case spelling. *)
Lemma GetFleetStatus_vin_not_written_witness :
  let resp := ok200 doc_lower_vin in
  let run := GetFleetStatus background "token" Fixture.vin1
               (fresh (client_of (Ok resp))) in
  let fs := {| KeyPaired := true;
               VehicleCommandProtocolRequired := false;
               SafetyScreenStreamingToggleEnabled := None;
               FirmwareVersion := "";
               FleetTelemetryVersion := None;
               TotalNumberOfKeys := None;
               DiscountedDeviceData := false |} in
  (fst run = (Some fs, None) /\
   json_scan (ReadCloser_data (Body resp)) = Some doc_lower_vin /\
   (forall j, ~ entry_in_document doc_lower_vin Fixture.vin1 j)) /\
  VehicleCommandProtocolRequired fs = false /\
  SafetyScreenStreamingToggleEnabled fs = None /\
  FirmwareVersion fs = "" /\
  FleetTelemetryVersion fs = None /\
  TotalNumberOfKeys fs = None /\
  DiscountedDeviceData fs = false.
Proof.
  cbn zeta.
  split; [split; [vm_compute; reflexivity|split;
          [vm_compute; reflexivity|exact doc_lower_vin_unwritten]]|].
  apply (GetFleetStatus_vin_not_written background "token" Fixture.vin1
           (fresh (client_of (Ok (ok200 doc_lower_vin)))) _
           (answering (Ok (ok200 doc_lower_vin)))
           (request_for "token" Fixture.vin1) (ok200 doc_lower_vin)
           doc_lower_vin);
    first [apply sent_fresh | exact doc_lower_vin_unwritten
          | vm_compute; reflexivity].
Defined.

End CaseRuns.

Section MixedRuns.
Import Mixed.
#[local] Existing Instance library.
#[local] Existing Instance globals.

(** C10 as stated fails: two 200 responses with the same [key_paired_vins]
    and the same description of the queried VIN, which differ in
    [unpaired_vins] alone, an empty array in one and a string in the other.
    What [json.Unmarshal] stores agrees on the length of [KeyPairedVINs] and
    on the entry of the VIN, yet the first call returns a result and the
    second the parse error. *)
Lemma GetFleetStatus_depends_only_on_counterexample :
  let resp1 := Cases.ok200 Fixture.doc_paired in
  let resp2 := Cases.ok200 Cases.doc_bad_unpaired in
  let run1 := GetFleetStatus background "token" Fixture.vin1
                (fresh (client_of (Ok resp1))) in
  let run2 := GetFleetStatus background "token" Fixture.vin1
                (fresh (client_of (Ok resp2))) in
  let stored1 :=
    fst (json_Unmarshal (ReadCloser_data (Body resp1)) responseWrapper_zero) in
  let stored2 :=
    fst (json_Unmarshal (ReadCloser_data (Body resp2)) responseWrapper_zero) in
  (StatusCode resp1 = StatusOK /\ StatusCode resp2 = StatusOK /\
   ReadCloser_err (Body resp1) = None /\ ReadCloser_err (Body resp2) = None) /\
  (exists paired infos unpaired1 unpaired2,
     json_scan (ReadCloser_data (Body resp1)) =
       Some (JObject [("response", JObject [("key_paired_vins", paired);
                                            ("unpaired_vins", unpaired1);
                                            ("vehicle_info", infos)])]) /\
     json_scan (ReadCloser_data (Body resp2)) =
       Some (JObject [("response", JObject [("key_paired_vins", paired);
                                            ("unpaired_vins", unpaired2);
                                            ("vehicle_info", infos)])]) /\
     unpaired1 <> unpaired2) /\
  length (KeyPairedVINs (Response stored1))
    = length (KeyPairedVINs (Response stored2)) /\
  VehicleInfo (Response stored1) !! Fixture.vin1
    = VehicleInfo (Response stored2) !! Fixture.vin1 /\
  fst run1 = (Some Fixture.status1, None) /\
  fst run2 = (None, Some (wrapError "failed to parse response body: "
                            (UnmarshalTypeError "string" "[]string"))) /\
  fst run1 <> fst run2.
Proof.
  cbn zeta. split; [repeat split|]. split.
  { eexists _, _, _, _. split; [vm_compute; reflexivity|].
    split; [vm_compute; reflexivity|]. discriminate. }
  repeat split; try (vm_compute; reflexivity).
  vm_compute. discriminate.
Qed.

End MixedRuns.
